(** * Electricity report program (TaskF/task_f.py): model and properties

    The program reads a semicolon separated file of electricity readings,
    sums consumption and production and averages temperature over a range of
    timestamps, renders the result as report lines and writes them to a file,
    all driven by a text menu.

    The model follows the Python source function by function:
    - Python floats are IEEE 754 binary64 numbers ([spec_float] with precision
      53 and maximal exponent 1024, rounding to nearest even);
    - a parsed row is a Python list of dynamically typed values;
    - exceptions are explicit results ([Ok] / [Raise]);
    - a Python [str] is held as the bytes of its UTF-8 form, a file as its
      bytes;
    - the console and the file system are an explicit [world] threaded through
      the interactive functions. *)

From Stdlib Require Import ZArith Ascii Floats.SpecFloat.
From stdpp Require Import gmap strings pretty list.

Open Scope Z_scope.

(** ** Exceptions and results *)

Inductive exn : Type :=
| ValueError (msg : string)
| IndexError (msg : string)
| TypeError (msg : string)
| AttributeError (msg : string)
| ZeroDivisionError (msg : string)
| OverflowError (msg : string)
| EOFError (msg : string)
| FileNotFoundError (msg : string)
| PermissionError (msg : string)
| IsADirectoryError (msg : string)
| UnicodeDecodeError (msg : string).

(** [str(e)] *)
Definition exn_str (e : exn) : string :=
  match e with
  | ValueError m | IndexError m | TypeError m | AttributeError m
  | ZeroDivisionError m | OverflowError m | EOFError m | FileNotFoundError m | PermissionError m
  | IsADirectoryError m | UnicodeDecodeError m => m
  end.

(** Result of a computation without console or file effects. *)
Inductive result (A : Type) : Type :=
| Ok (a : A)
| Raise (e : exn).
Arguments Ok {A} a.
Arguments Raise {A} e.

#[global] Instance result_ret : MRet result := fun A a => Ok a.
#[global] Instance result_bind : MBind result := fun A B f m =>
  match m with
  | Ok a => f a
  | Raise e => Raise e
  end.

(** [l[i]] for a non-negative index. *)
Definition getitem {A} (l : list A) (i : nat) : result A :=
  match l !! i with
  | Some x => Ok x
  | None => Raise (IndexError "list index out of range")
  end.

(** ** Strings *)

Module Str.

Definition LF : ascii := Ascii.ascii_of_nat 10.
Definition CR : ascii := Ascii.ascii_of_nat 13.
Definition nl : string := String LF "".

Definition ascii_eqb (a b : ascii) : bool := bool_decide (a = b).

Definition code (c : ascii) : Z := Z.of_nat (Ascii.nat_of_ascii c).

(** The characters [str.strip()] removes are those of [str.isspace()].
    The ASCII ones: tab, LF, VT, FF, CR, the separators 0x1c-0x1f and
    space. *)
Definition is_space (c : ascii) : bool :=
  let n := code c in
  ((9 <=? n) && (n <=? 13)) || ((28 <=? n) && (n <=? 32)).

(** The others, as the two or three bytes of their UTF-8 form: U+0085 and
    U+00A0; U+1680, U+2000 to U+200A, U+2028, U+2029, U+202F, U+205F and
    U+3000. *)
Definition is_space2 (a b : ascii) : bool :=
  (code a =? 194) && ((code b =? 133) || (code b =? 160)).

Definition is_space3 (a b c : ascii) : bool :=
  let x := code a in
  let y := code b in
  let z := code c in
  ((x =? 225) && (y =? 154) && (z =? 128))
  || ((x =? 226) && (y =? 128)
      && (((128 <=? z) && (z <=? 138)) || (z =? 168) || (z =? 169) || (z =? 175)))
  || ((x =? 226) && (y =? 129) && (z =? 159))
  || ((x =? 227) && (y =? 128) && (z =? 128)).

Definition is_digit (c : ascii) : bool :=
  let n := code c in (48 <=? n) && (n <=? 57).

Definition digit_val (c : ascii) : Z := code c - 48.

Fixpoint lstrip (s : string) : string :=
  match s with
  | EmptyString => EmptyString
  | String a r =>
      if is_space a then lstrip r
      else
        match r with
        | String b r' =>
            if is_space2 a b then lstrip r'
            else
              match r' with
              | String c r'' => if is_space3 a b c then lstrip r'' else s
              | EmptyString => s
              end
        | EmptyString => s
        end
  end.

Fixpoint rstrip (s : string) : string :=
  match s with
  | EmptyString => EmptyString
  | String a r =>
      match rstrip r with
      | EmptyString => if is_space a then EmptyString else String a EmptyString
      | String b EmptyString as r' =>
          if is_space2 a b then EmptyString else String a r'
      | String b (String c EmptyString) as r' =>
          if is_space3 a b c then EmptyString else String a r'
      | r' => String a r'
      end
  end.

(** [s.strip()] *)
Definition strip (s : string) : string := rstrip (lstrip s).


(** [s.split(sep)] for a one character separator. *)
Fixpoint split (sep : ascii) (s : string) : list string :=
  match s with
  | EmptyString => [EmptyString]
  | String c r =>
      if ascii_eqb c sep then EmptyString :: split sep r
      else match split sep r with
           | f :: fs => String c f :: fs
           | [] => [String c EmptyString]
           end
  end.

(** [s.replace(a, b)] for one character strings [a] and [b]. *)
Fixpoint replace (a b : ascii) (s : string) : string :=
  match s with
  | EmptyString => EmptyString
  | String c r => String (if ascii_eqb c a then b else c) (replace a b r)
  end.

(** Only ASCII digits. *)
Fixpoint all_digits (s : string) : bool :=
  match s with
  | EmptyString => true
  | String c r => is_digit c && all_digits r
  end.


(** A byte that continues a UTF-8 sequence. *)
Definition is_continuation (c : ascii) : bool :=
  (128 <=? code c) && (code c <=? 191).

(** The second byte of a UTF-8 sequence after the first byte [a]: not an
    overlong form, not a surrogate, not beyond U+10FFFF. *)
Definition second_byte_ok (a b : ascii) : bool :=
  let x := code a in
  let y := code b in
  if x =? 224 then (160 <=? y) && (y <=? 191)
  else if x =? 237 then (128 <=? y) && (y <=? 159)
  else if x =? 240 then (144 <=? y) && (y <=? 191)
  else if x =? 244 then (128 <=? y) && (y <=? 143)
  else is_continuation b.

(** The characters of a string, as code points; [None] when the bytes are
    not UTF-8. *)
Fixpoint code_points (s : string) : option (list Z) :=
  match s with
  | EmptyString => Some []
  | String a r1 =>
      let x := code a in
      if x <? 128 then cons x <$> code_points r1
      else if (x <? 194) || (244 <? x) then None
      else
        match r1 with
        | EmptyString => None
        | String b r2 =>
            let y := code b - 128 in
            if negb (second_byte_ok a b) then None
            else if x <? 224 then cons ((x - 192) * 64 + y) <$> code_points r2
            else
              match r2 with
              | EmptyString => None
              | String c r3 =>
                  let z := code c - 128 in
                  if negb (is_continuation c) then None
                  else if x <? 240
                  then cons ((x - 224) * 4096 + y * 64 + z) <$> code_points r3
                  else
                    match r3 with
                    | EmptyString => None
                    | String d r4 =>
                        if negb (is_continuation d) then None
                        else cons ((x - 240) * 262144 + y * 4096 + z * 64
                                   + (code d - 128)) <$> code_points r4
                    end
              end
        end
  end.

(** The decimal digits (category Nd of Unicode 14.0, the version of Python
    3.11) come in runs of ten, from the digit zero to the digit nine: the
    code points of the zeros. *)
Definition decimal_zeros : list Z :=
  [
    48; 1632; 1776; 1984; 2406; 2534; 2662; 2790; 2918; 3046; 3174; 3302;
    3430; 3558; 3664; 3792; 3872; 4160; 4240; 6112; 6160; 6470; 6608; 6784;
    6800; 6992; 7088; 7232; 7248; 42528; 43216; 43264; 43472; 43504; 43600;
    44016; 65296; 66720; 68912; 69734; 69872; 69942; 70096; 70384; 70736;
    70864; 71248; 71360; 71472; 71904; 72016; 72784; 73040; 73120; 92768;
    92864; 93008; 120782; 120792; 120802; 120812; 120822; 123200; 123632;
    125264; 130032
  ].

(** The value of a decimal digit, the characters that [int] and the [\d]
    of a regular expression accept. *)
Definition decimal (c : Z) : option Z :=
  zero ← List.find (fun zero => (zero <=? c) && (c <? zero + 10)) decimal_zeros;
  Some (c - zero).

(** The other characters for which [str.isdigit()] holds (superscripts,
    circled digits and the like), as first code point and length of each
    range. *)
Definition other_digits : list (Z * Z) :=
  [
    (178, 2); (185, 1); (4969, 9); (6618, 1); (8304, 1); (8308, 6);
    (8320, 10); (9312, 9); (9332, 9); (9352, 9); (9450, 1); (9461, 9);
    (9471, 1); (10102, 9); (10112, 9); (10122, 9); (68160, 4); (69216, 9);
    (69714, 9); (127232, 11)
  ].

Definition is_digit_point (c : Z) : bool :=
  bool_decide (is_Some (decimal c))
  || existsb (fun '(first, n) => (first <=? c) && (c <? first + n)) other_digits.

(** [s.isdigit()]: at least one character, and only digits. *)
Definition isdigit (s : string) : bool :=
  match code_points s with
  | Some (c :: l) => forallb is_digit_point (c :: l)
  | _ => false
  end.

(** Value of a string of decimal digits, most significant first. *)
Fixpoint digits_value (acc : Z) (s : string) : Z :=
  match s with
  | EmptyString => acc
  | String c r => digits_value (10 * acc + digit_val c) r
  end.

(** The lines produced by iterating over a file opened in text mode with
    universal newlines: every line keeps its terminator, and the
    terminators CR LF and CR are both read as LF. *)
Fixpoint text_lines (s : string) : list string :=
  match s with
  | EmptyString => []
  | String c r =>
      if ascii_eqb c LF then nl :: text_lines r
      else if ascii_eqb c CR then
        match r with
        | String c' r' =>
            if ascii_eqb c' LF then nl :: text_lines r'
            else nl :: text_lines r
        | EmptyString => [nl]
        end
      else match text_lines r with
           | l :: ls => String c l :: ls
           | [] => [String c EmptyString]
           end
  end.

(** Decimal rendering left-padded with zeros to [width] characters. *)
Fixpoint zeros (n : nat) : string :=
  match n with
  | O => EmptyString
  | S n' => String "0" (zeros n')
  end.

Definition zero_pad (width : nat) (n : Z) : string :=
  let s := pretty n in
  zeros (width - String.length s)%nat +:+ s.

Definition hex_digit (n : Z) : ascii :=
  Ascii.ascii_of_nat (Z.to_nat (if n <? 10 then 48 + n else 87 + n)).

(** The two hexadecimal digits of a byte. *)
Definition hex (c : ascii) : string :=
  String (hex_digit (code c / 16)) (String (hex_digit (code c mod 16)) EmptyString).

Definition single_quote : ascii := Ascii.ascii_of_nat 39.
Definition double_quote : ascii := Ascii.ascii_of_nat 34.
Definition backslash : ascii := Ascii.ascii_of_nat 92.

Fixpoint contains (c : ascii) (s : string) : bool :=
  match s with
  | EmptyString => false
  | String x r => ascii_eqb x c || contains c r
  end.

(** The body of [repr(s)] between the quotes [quote]: the backslash and
    the quote are escaped, LF, CR and tab are written with their letter,
    the other ASCII control characters in hexadecimal; the bytes of a
    character beyond ASCII are kept, as [repr] keeps a printable
    character. *)
Fixpoint escape (quote : ascii) (s : string) : string :=
  match s with
  | EmptyString => EmptyString
  | String c r =>
      (if ascii_eqb c backslash then String backslash (String backslash EmptyString)
       else if ascii_eqb c quote then String backslash (String quote EmptyString)
       else if ascii_eqb c LF then "\n"
       else if ascii_eqb c CR then "\r"
       else if ascii_eqb c (Ascii.ascii_of_nat 9) then "\t"
       else if (code c <? 32) || (code c =? 127) then "\x" +:+ hex c
       else String c EmptyString) +:+ escape quote r
  end.

(** [repr(s)]: in single quotes, unless the text holds a single quote and
    no double quote. *)
Definition repr (s : string) : string :=
  let quote :=
    if contains single_quote s && negb (contains double_quote s)
    then double_quote else single_quote in
  String quote (escape quote s +:+ String quote EmptyString).

End Str.

(** ** Python floats: IEEE 754 binary64 *)

Module Float.

Definition float : Type := spec_float.

Definition prec : Z := 53.
Definition emax : Z := 1024.

(** The literal [0.0]. *)
Definition zero : float := S754_zero false.

(** [x + y] on floats: never raises, overflow gives an infinity. *)
Definition add (x y : float) : float := SFadd prec emax x y.

(** [float(n)] for a Python int, as done implicitly by [float / int]. *)
Definition of_int (n : Z) : result float :=
  match binary_normalize prec emax n 0 false with
  | S754_infinity _ => Raise (OverflowError "int too large to convert to float")
  | f => Ok f
  end.

(** [x / y] on floats. *)
Definition truediv (x y : float) : result float :=
  match y with
  | S754_zero _ => Raise (ZeroDivisionError "float division by zero")
  | _ => Ok (SFdiv prec emax x y)
  end.

(** The integer nearest to [100 * m * 2^e], ties to even. *)
Definition hundredths (m : positive) (e : Z) : Z :=
  let n := 100 * Z.pos m in
  if 0 <=? e then n * 2 ^ e
  else
    let d := 2 ^ (- e) in
    let q := n / d in
    let r := n mod d in
    match 2 * r ?= d with
    | Lt => q
    | Gt => q + 1
    | Eq => if Z.even q then q else q + 1
    end.

(** [f"{value:.2f}"]: the exact binary value rounded to two decimals. *)
Definition format_2f (value : float) : string :=
  match value with
  | S754_nan => "nan"
  | S754_infinity s => (if s then "-" else "") +:+ "inf"
  | S754_zero s => (if s then "-" else "") +:+ "0.00"
  | S754_finite s m e =>
      let n := hundredths m e in
      (if s then "-" else "") +:+ pretty (n / 100) +:+ "."
        +:+ Str.zero_pad 2 (n mod 100)
  end.

End Float.

Abbreviation float := Float.float.

(** ** datetime and calendar *)

Module Datetime.

(** A [datetime.datetime]. [tzinfo] is [None] for a naive value and
    [Some off] for an aware one with a fixed UTC offset of [off]
    microseconds ([timezone.utc] is [Some 0]). *)
Record datetime : Type := mk {
  year : Z; month : Z; day : Z;
  hour : Z; minute : Z; second : Z; microsecond : Z;
  tzinfo : option Z
}.

Definition utc : option Z := Some 0.

(** [calendar.isleap] *)
Definition isleap (y : Z) : bool :=
  (y mod 4 =? 0) && (negb (y mod 100 =? 0) || (y mod 400 =? 0)).

(** [calendar.mdays] *)
Definition mdays : list Z := [0; 31; 28; 31; 30; 31; 30; 31; 31; 30; 31; 30; 31].

(** [calendar.monthrange(year, month)[1]] for a month in 1..12. *)
Definition monthrange_days (y m : Z) : Z :=
  nth (Z.to_nat m) mdays 0 + (if (m =? 2) && isleap y then 1 else 0).

(** [calendar.month_name[month]] in the default (C) locale. *)
Definition month_name (m : Z) : string :=
  nth (Z.to_nat m)
    [""; "January"; "February"; "March"; "April"; "May"; "June"; "July";
     "August"; "September"; "October"; "November"; "December"] "".

Definition valid_date (y m d : Z) : bool :=
  (1 <=? y) && (y <=? 9999) && (1 <=? m) && (m <=? 12)
  && (1 <=? d) && (d <=? monthrange_days y m).

Definition valid_time (h mi s us : Z) : bool :=
  (0 <=? h) && (h <=? 23) && (0 <=? mi) && (mi <=? 59)
  && (0 <=? s) && (s <=? 59) && (0 <=? us) && (us <=? 999999).

(** The constructor [datetime(y, m, d, h, mi, s, us)]: a naive value, or
    [ValueError] when a field is out of range. *)
Definition new (y m d h mi s us : Z) : result datetime :=
  if valid_date y m d && valid_time h mi s us
  then Ok (mk y m d h mi s us None)
  else Raise (ValueError "datetime field out of range").

(** [dt.replace(tzinfo=tz)] *)
Definition replace_tzinfo (tz : option Z) (dt : datetime) : datetime :=
  mk (year dt) (month dt) (day dt)
     (hour dt) (minute dt) (second dt) (microsecond dt) tz.

(** [dt.replace(hour=23, minute=59, second=59, microsecond=999999,
    tzinfo=tz)] *)
Definition replace_end_of_day (tz : option Z) (dt : datetime) : datetime :=
  mk (year dt) (month dt) (day dt) 23 59 59 999999 tz.

(** Days before January 1st of year [y], and the proleptic ordinal of a
    date ([date.toordinal]). *)
Definition days_before_year (y : Z) : Z :=
  let y1 := y - 1 in y1 * 365 + y1 / 4 - y1 / 100 + y1 / 400.

Definition days_before_month (y m : Z) : Z :=
  nth (Z.to_nat m) [0; 0; 31; 59; 90; 120; 151; 181; 212; 243; 273; 304; 334] 0
  + (if (2 <? m) && isleap y then 1 else 0).

Definition toordinal (dt : datetime) : Z :=
  days_before_year (year dt) + days_before_month (year dt) (month dt) + day dt.

(** Microseconds since the start of day 0 of the wall clock time. *)
Definition wall_us (dt : datetime) : Z :=
  (((toordinal dt * 24 + hour dt) * 60 + minute dt) * 60 + second dt) * 1000000
  + microsecond dt.

(** Comparison of the field tuples (year, ..., microsecond). *)
Definition lex (c : comparison) (k : comparison) : comparison :=
  match c with Eq => k | _ => c end.

Definition base_compare (a b : datetime) : comparison :=
  lex (year a ?= year b)
  (lex (month a ?= month b)
  (lex (day a ?= day b)
  (lex (hour a ?= hour b)
  (lex (minute a ?= minute b)
  (lex (second a ?= second b)
       (microsecond a ?= microsecond b)))))).

(** Ordering comparison of two datetimes: equal offsets (or two naive
    values) compare the fields, different offsets compare the instants,
    and a naive value against an aware one is a [TypeError]. *)
Definition compare (a b : datetime) : result comparison :=
  match tzinfo a, tzinfo b with
  | None, None => Ok (base_compare a b)
  | Some oa, Some ob =>
      if oa =? ob then Ok (base_compare a b)
      else Ok (wall_us a - oa ?= wall_us b - ob)
  | _, _ => Raise (TypeError "can't compare offset-naive and offset-aware datetimes")
  end.

(** [a <= b] *)
Definition le (a b : datetime) : result bool :=
  c ← compare a b;
  Ok (match c with Gt => false | _ => true end).

(** The day field of ["%d"]: [3[0-1]|[1-2]\d|0[1-9]|[1-9]| [1-9]]. *)
Definition parse_day (s : string) : option Z :=
  match s with
  | String a (String b EmptyString) =>
      if Str.ascii_eqb a "3" && (Str.ascii_eqb b "0" || Str.ascii_eqb b "1")
      then Some (30 + Str.digit_val b)
      else if (Str.ascii_eqb a "1" || Str.ascii_eqb a "2") && Str.is_digit b
      then Some (10 * Str.digit_val a + Str.digit_val b)
      else if (Str.ascii_eqb a "0" || Str.ascii_eqb a " ")
              && Str.is_digit b && negb (Str.ascii_eqb b "0")
      then Some (Str.digit_val b)
      else None
  | String a EmptyString =>
      if Str.is_digit a && negb (Str.ascii_eqb a "0")
      then Some (Str.digit_val a) else None
  | _ => None
  end.

(** The month field of ["%m"]: [1[0-2]|0[1-9]|[1-9]]. *)
Definition parse_month (s : string) : option Z :=
  match s with
  | String a (String b EmptyString) =>
      if Str.ascii_eqb a "1"
         && (Str.ascii_eqb b "0" || Str.ascii_eqb b "1" || Str.ascii_eqb b "2")
      then Some (10 + Str.digit_val b)
      else if Str.ascii_eqb a "0" && Str.is_digit b && negb (Str.ascii_eqb b "0")
      then Some (Str.digit_val b)
      else None
  | String a EmptyString =>
      if Str.is_digit a && negb (Str.ascii_eqb a "0")
      then Some (Str.digit_val a) else None
  | _ => None
  end.

(** The year field of ["%Y"]: exactly four digits. *)
Definition parse_year (s : string) : option Z :=
  if (String.length s =? 4)%nat && Str.all_digits s
  then Some (Str.digits_value 0 s) else None.

(** [datetime.strptime(s, "%d.%m.%Y")] on ASCII text: the three fields
    separated by dots, nothing before or after, and a date that exists.
    The result is naive, at midnight. *)
Definition strptime_dmY (s : string) : result datetime :=
  match Str.split "." s with
  | [ds; ms; ys] =>
      match parse_day ds, parse_month ms, parse_year ys with
      | Some d, Some m, Some y =>
          if valid_date y m d then Ok (mk y m d 0 0 0 0 None)
          else Raise (ValueError "day is out of range for month")
      | _, _, _ =>
          Raise (ValueError ("time data " +:+ Str.repr s
                             +:+ " does not match format '%d.%m.%Y'"))
      end
  | _ => Raise (ValueError ("time data " +:+ Str.repr s
                            +:+ " does not match format '%d.%m.%Y'"))
  end.

(** [dt.strftime('%d.%m.%Y')]: day and month with two digits, the year as
    the C library prints it, without padding. *)
Definition strftime_dmY (dt : datetime) : string :=
  Str.zero_pad 2 (day dt) +:+ "." +:+ Str.zero_pad 2 (month dt) +:+ "."
    +:+ pretty (year dt).

End Datetime.

Abbreviation datetime := Datetime.datetime.

(** ** Dynamically typed values held in a row *)

Inductive value : Type :=
| VDatetime (d : datetime)
| VFloat (f : float).

(** [d <= v] and [v <= d] for a datetime [d]: only another datetime can be
    compared with it. *)
Definition datetime_le_value (d : datetime) (v : value) : result bool :=
  match v with
  | VDatetime d' => Datetime.le d d'
  | VFloat _ =>
      Raise (TypeError "'<=' not supported between instances of 'datetime.datetime' and 'float'")
  end.

Definition value_le_datetime (v : value) (d : datetime) : result bool :=
  match v with
  | VDatetime d' => Datetime.le d' d
  | VFloat _ =>
      Raise (TypeError "'<=' not supported between instances of 'float' and 'datetime.datetime'")
  end.

(** [total += v] for a float [total]. *)
Definition float_iadd (total : float) (v : value) : result float :=
  match v with
  | VFloat f => Ok (Float.add total f)
  | VDatetime _ =>
      Raise (TypeError "unsupported operand type(s) for +=: 'float' and 'datetime.datetime'")
  end.

(** ** The library functions used by the loader

    [float(s)], [datetime.fromisoformat(s)] and the UTF-8 decoder of a file
    opened in text mode belong to the Python library, not to the program.
    The program is modelled over any such functions; [Reference] below
    gives one choice, used to run the program on concrete files. *)

Class PyLib : Type := {
  (** [float(s)] for a string [s] *)
  py_float : string -> result float;
  (** [datetime.fromisoformat(s)] *)
  fromisoformat : string -> result datetime;
  (** Reading a file with these bytes as UTF-8 text: [None] when the bytes
      decode; otherwise the number of lines the iteration over the file
      delivers before it raises [UnicodeDecodeError] (the file is decoded
      piece by piece), and the message of that exception. *)
  utf8_decode_error : string -> option (nat * string)
}.

Module Reference.

Definition lower (c : ascii) : ascii :=
  let n := Str.code c in
  if (65 <=? n) && (n <=? 90) then Ascii.ascii_of_nat (Z.to_nat (n + 32)) else c.

Fixpoint lower_str (s : string) : string :=
  match s with
  | EmptyString => EmptyString
  | String c r => String (lower c) (lower_str r)
  end.

(** Digit grouping: an underscore must stand between two digits; the
    underscores are then removed. [prev] is the preceding character. *)
Fixpoint strip_underscores (prev : ascii) (s : string) : option string :=
  match s with
  | EmptyString => if Str.ascii_eqb prev "_" then None else Some EmptyString
  | String c r =>
      if Str.ascii_eqb c "_" then
        if Str.is_digit prev then strip_underscores c r else None
      else if Str.ascii_eqb prev "_" && negb (Str.is_digit c) then None
      else r' ← strip_underscores c r; Some (String c r')
  end.

(** Longest prefix of digits and what follows it. *)
Fixpoint span_digits (s : string) : string * string :=
  match s with
  | String c r =>
      if Str.is_digit c then let '(d, t) := span_digits r in (String c d, t)
      else (EmptyString, s)
  | EmptyString => (EmptyString, EmptyString)
  end.

Definition take_sign (s : string) : bool * string :=
  match s with
  | String c r =>
      if Str.ascii_eqb c "-" then (true, r)
      else if Str.ascii_eqb c "+" then (false, r)
      else (false, s)
  | EmptyString => (false, s)
  end.

(** The exponent part: empty, or [e] or [E], an optional sign and at
    least one digit. *)
Definition parse_exponent (s : string) : option Z :=
  match s with
  | EmptyString => Some 0
  | String c r =>
      if Str.ascii_eqb (lower c) "e" then
        let '(neg, r1) := take_sign r in
        if Str.isdigit r1
        then Some (if neg then - Str.digits_value 0 r1 else Str.digits_value 0 r1)
        else None
      else None
  end.

(** The correctly rounded binary64 value of [n * 10^e10], [n >= 0]. *)
Definition decimal_to_float (neg : bool) (n e10 : Z) : float :=
  match n with
  | Z.pos p =>
      if 0 <=? e10
      then binary_normalize Float.prec Float.emax
             (if neg then - (n * 10 ^ e10) else n * 10 ^ e10) 0 false
      else SFdiv Float.prec Float.emax
             (S754_finite neg p 0)
             (S754_finite false (Z.to_pos (10 ^ (- e10))) 0)
  | _ => S754_zero neg
  end.

(** A decimal literal: digits, an optional point and digits, an optional
    exponent; at least one digit before the exponent. *)
Definition parse_decimal (neg : bool) (s : string) : option float :=
  let '(ip, r1) := span_digits s in
  let '(fp, r2) :=
    match r1 with
    | String c r =>
        if Str.ascii_eqb c "." then span_digits r else (EmptyString, r1)
    | EmptyString => (EmptyString, r1)
    end in
  match ip +:+ fp with
  | EmptyString => None
  | ds =>
      ex ← parse_exponent r2;
      Some (decimal_to_float neg (Str.digits_value 0 ds)
              (ex - Z.of_nat (String.length fp)))
  end.

(** [float(s)] on ASCII text. *)
Definition float_of_str (s : string) : result float :=
  let t := Str.strip s in
  let '(neg, body) := take_sign t in
  let parsed :=
    match lower_str body with
    | "inf" | "infinity" => Some (S754_infinity neg)
    | "nan" => Some S754_nan
    | _ => b ← strip_underscores " " body; parse_decimal neg b
    end in
  match parsed with
  | Some f => Ok f
  | None =>
      Raise (ValueError ("could not convert string to float: " +:+ Str.repr s))
  end.

(** Exactly [n] digits at the front of [s]: their value and the rest. *)
Fixpoint take_digits (n : nat) (acc : Z) (s : string) : option (Z * string) :=
  match n, s with
  | O, _ => Some (acc, s)
  | S n', String c r =>
      if Str.is_digit c then take_digits n' (10 * acc + Str.digit_val c) r
      else None
  | S _, EmptyString => None
  end.

Definition expect (c : ascii) (s : string) : option string :=
  match s with
  | String c' r => if Str.ascii_eqb c' c then Some r else None
  | EmptyString => None
  end.

(** [HH[:MM[:SS[.fff[fff]]]]], the whole of [s]. *)
Definition parse_hh_mm_ss_ff (s : string) : option (Z * Z * Z * Z) :=
  '(h, r) ← take_digits 2 0 s;
  match r with
  | EmptyString => Some (h, 0, 0, 0)
  | _ =>
      r ← expect ":" r;
      '(mi, r) ← take_digits 2 0 r;
      match r with
      | EmptyString => Some (h, mi, 0, 0)
      | _ =>
          r ← expect ":" r;
          '(sec, r) ← take_digits 2 0 r;
          match r with
          | EmptyString => Some (h, mi, sec, 0)
          | _ =>
              r ← expect "." r;
              if Str.all_digits r then
                if (String.length r =? 3)%nat
                then Some (h, mi, sec, 1000 * Str.digits_value 0 r)
                else if (String.length r =? 6)%nat
                then Some (h, mi, sec, Str.digits_value 0 r)
                else None
              else None
          end
      end
  end.

(** Splits [s] at the first occurrence of a character satisfying [p]. *)
Fixpoint break (p : ascii -> bool) (s : string) : string * option (ascii * string) :=
  match s with
  | EmptyString => (EmptyString, None)
  | String c r =>
      if p c then (EmptyString, Some (c, r))
      else let '(a, b) := break p r in (String c a, b)
  end.

(** The time and offset part: the offset starts at the first [-], or at
    the first [+] when there is no [-]. *)
Definition parse_time (s : string) : option (Z * Z * Z * Z * option Z) :=
  let '(t, off) :=
    match break (fun c => Str.ascii_eqb c "-") s with
    | (t, Some o) => (t, Some o)
    | (_, None) => break (fun c => Str.ascii_eqb c "+") s
    end in
  '(h, mi, sec, us) ← parse_hh_mm_ss_ff t;
  match off with
  | None => Some (h, mi, sec, us, None)
  | Some (sign, z) =>
      let n := String.length z in
      if (n =? 5)%nat || (n =? 8)%nat || (n =? 15)%nat then
        '(zh, zm, zs, zu) ← parse_hh_mm_ss_ff z;
        let d := ((zh * 60 + zm) * 60 + zs) * 1000000 + zu in
        if d <? 86400000000
        then Some (h, mi, sec, us,
                   Some (if Str.ascii_eqb sign "-" then - d else d))
        else None
      else None
  end.

(** [datetime.fromisoformat(s)] for the format written by
    [datetime.isoformat()]: [YYYY-MM-DD], then optionally one separator
    character and [HH[:MM[:SS[.fff[fff]]]]] with an optional offset
    [+HH:MM[:SS[.ffffff]]]. *)
Definition parse_isoformat (s : string) : option datetime :=
  '(y, r) ← take_digits 4 0 s;
  r ← expect "-" r;
  '(m, r) ← take_digits 2 0 r;
  r ← expect "-" r;
  '(d, r) ← take_digits 2 0 r;
  '(h, mi, sec, us, tz) ←
    match r with
    | EmptyString => Some (0, 0, 0, 0, None)
    | String _ t => parse_time t
    end;
  if Datetime.valid_date y m d && Datetime.valid_time h mi sec us
  then Some (Datetime.mk y m d h mi sec us tz) else None.

Definition datetime_fromisoformat (s : string) : result datetime :=
  match parse_isoformat s with
  | Some dt => Ok dt
  | None => Raise (ValueError ("Invalid isoformat string: " +:+ Str.repr s))
  end.

(** [str(e)] for the [UnicodeDecodeError] on the [len] bytes from [pos],
    the first of which is [c]. *)
Definition decode_error (c : ascii) (pos : Z) (len : Z) (reason : string) : string :=
  "'utf-8' codec can't decode "
  +:+ (if len =? 1
       then "byte 0x" +:+ Str.hex c +:+ " in position " +:+ pretty pos
       else "bytes in position " +:+ pretty pos +:+ "-" +:+ pretty (pos + len - 1))
  +:+ ": " +:+ reason.

(** A sequence that stops at the end of the file is reported from the
    position where it starts in the last piece decoded, which holds nothing
    else. *)
Definition end_of_data (c : ascii) (len : Z) : string :=
  decode_error c 0 len "unexpected end of data".

Definition is_continuation (c : ascii) : bool :=
  (128 <=? Str.code c) && (Str.code c <=? 191).

(** The second byte of a sequence of three or four bytes: not an overlong
    form, not a surrogate, not beyond U+10FFFF. *)
Definition second_byte_ok (a b : ascii) : bool :=
  let x := Str.code a in
  let y := Str.code b in
  if x =? 224 then (160 <=? y) && (y <=? 191)
  else if x =? 237 then (128 <=? y) && (y <=? 159)
  else if x =? 240 then (144 <=? y) && (y <=? 191)
  else if x =? 244 then (128 <=? y) && (y <=? 143)
  else is_continuation b.

(** The first place where the bytes are not UTF-8, as the message of the
    decoder, from position [pos] on. *)
Fixpoint utf8_scan (pos : Z) (s : string) : option string :=
  match s with
  | EmptyString => None
  | String a r =>
      let x := Str.code a in
      if x <? 128 then utf8_scan (pos + 1) r
      else if (x <? 194) || (244 <? x)
      then Some (decode_error a pos 1 "invalid start byte")
      else
        match r with
        | EmptyString => Some (end_of_data a 1)
        | String b r' =>
            if negb (second_byte_ok a b)
            then Some (decode_error a pos 1 "invalid continuation byte")
            else if x <? 224 then utf8_scan (pos + 2) r'
            else
              match r' with
              | EmptyString => Some (end_of_data a 2)
              | String c r'' =>
                  if negb (is_continuation c)
                  then Some (decode_error a pos 2 "invalid continuation byte")
                  else if x <? 240 then utf8_scan (pos + 3) r''
                  else
                    match r'' with
                    | EmptyString => Some (end_of_data a 3)
                    | String d r''' =>
                        if negb (is_continuation d)
                        then Some (decode_error a pos 3 "invalid continuation byte")
                        else utf8_scan (pos + 4) r'''
                    end
              end
        end
  end.

(** A file of at most 8192 bytes is decoded in one piece: no line is
    delivered when its bytes are not UTF-8. *)
Definition utf8_error (content : string) : option (nat * string) :=
  msg ← utf8_scan 0 content; Some (O, msg).

#[global] Instance lib : PyLib := {|
  py_float := float_of_str;
  fromisoformat := datetime_fromisoformat;
  utf8_decode_error := utf8_error
|}.

End Reference.

(** ** Console and file system *)

(** A directory entry: a regular file with its permissions and text, or a
    directory. *)
Inductive node : Type :=
| RegularFile (readable writable : bool) (content : string)
| Directory.

(** The part of the outside world the program talks to: the lines still to
    be typed on standard input, the texts written to standard output so far
    (oldest first), the entries of the working directory, and whether new
    entries may be created in it. *)
Record world : Type := World {
  stdin : list string;
  stdout : list string;
  fs : gmap string node;
  cwd_writable : bool
}.

(** An interactive computation: from a world to its result and the new
    world; [None] when a loop was cut off before it ended. *)
Definition prog (A : Type) : Type := world -> option (result A * world).

#[global] Instance prog_ret : MRet prog := fun A a w => Some (Ok a, w).
#[global] Instance prog_bind : MBind prog := fun A B f m w =>
  match m w with
  | Some (Ok a, w') => f a w'
  | Some (Raise e, w') => Some (Raise e, w')
  | None => None
  end.

Definition raise {A} (e : exn) : prog A := fun w => Some (Raise e, w).

Definition lift {A} (r : result A) : prog A := fun w => Some (r, w).

Definition cut_off {A} : prog A := fun _ => None.

(** [try: m  except ...: h e]: [h e] is [None] for an exception that no
    clause catches. *)
Definition try_except {A} (m : prog A) (h : exn -> option (prog A)) : prog A :=
  fun w =>
    match m w with
    | Some (Raise e, w') =>
        match h e with
        | Some k => k w'
        | None => Some (Raise e, w')
        end
    | r => r
    end.

Definition write_stdout (s : string) : prog unit := fun w =>
  Some (Ok (), World (stdin w) (stdout w ++ [s]) (fs w) (cwd_writable w)).

(** [print(s)] *)
Definition print (s : string) : prog unit := write_stdout (s +:+ Str.nl).

(** [input(prompt)]: the next line typed, without its line end. *)
Definition input (prompt : string) : prog string := fun w =>
  let w1 :=
    match prompt with
    | EmptyString => w
    | _ => World (stdin w) (stdout w ++ [prompt]) (fs w) (cwd_writable w)
    end in
  match stdin w1 with
  | line :: rest =>
      Some (Ok line, World rest (stdout w1) (fs w1) (cwd_writable w1))
  | [] => Some (Raise (EOFError "EOF when reading a line"), w1)
  end.

(** Runs a loop with as many rounds as there are input lines left, plus
    one: enough for a loop that reads a line in every round. *)
Definition bounded_by_input {A} (loop : nat -> prog A) : prog A :=
  fun w => loop (S (length (stdin w))) w.

(** [os.path.exists(name)] *)
Definition os_path_exists (name : string) : prog bool := fun w =>
  Some (Ok (bool_decide (is_Some (fs w !! name))), w).

Definition set_fs (m : gmap string node) (w : world) : world :=
  World (stdin w) (stdout w) m (cwd_writable w).

(** [open(name, "r", encoding="utf-8")]: the bytes of the file opened. *)
Definition open_read (name : string) : prog string := fun w =>
  match fs w !! name with
  | None =>
      Some (Raise (FileNotFoundError
              ("[Errno 2] No such file or directory: " +:+ Str.repr name)), w)
  | Some Directory =>
      Some (Raise (IsADirectoryError
              ("[Errno 21] Is a directory: " +:+ Str.repr name)), w)
  | Some (RegularFile r _ content) =>
      if r then Some (Ok content, w)
      else Some (Raise (PermissionError
                   ("[Errno 13] Permission denied: " +:+ Str.repr name)), w)
  end.

(** [open(name, "w", encoding="utf-8")]: creates the file or empties it. *)
Definition open_write (name : string) : prog unit := fun w =>
  match fs w !! name with
  | None =>
      if cwd_writable w
      then Some (Ok (), set_fs (<[name := RegularFile true true ""]> (fs w)) w)
      else Some (Raise (PermissionError
                   ("[Errno 13] Permission denied: " +:+ Str.repr name)), w)
  | Some Directory =>
      Some (Raise (IsADirectoryError
              ("[Errno 21] Is a directory: " +:+ Str.repr name)), w)
  | Some (RegularFile r wr _) =>
      if wr
      then Some (Ok (), set_fs (<[name := RegularFile r wr ""]> (fs w)) w)
      else Some (Raise (PermissionError
                   ("[Errno 13] Permission denied: " +:+ Str.repr name)), w)
  end.

(** [f.write(s)] on the file opened under [name]. *)
Definition file_write (name : string) (s : string) : prog unit := fun w =>
  match fs w !! name with
  | Some (RegularFile r wr content) =>
      Some (Ok (), set_fs (<[name := RegularFile r wr (content +:+ s)]> (fs w)) w)
  | _ => Some (Ok (), w)
  end.

(** [with open(name, "w", encoding="utf-8") as f:
       for line in lines: f.write(line + "\n")] *)
Fixpoint write_each (name : string) (lines : list string) : prog unit :=
  match lines with
  | [] => mret ()
  | line :: rest => file_write name (line +:+ Str.nl);; write_each name rest
  end.

Definition write_lines (name : string) (lines : list string) : prog unit :=
  open_write name;; write_each name lines.

(** * The program *)

(** A converted row: the Python list [[timestamp, consumption, production,
    temperature]]. *)
Definition row : Type := list value.

(** ** Calculation functions *)

(** The test [start_date <= timestamp <= end_date]; the second comparison is
    only made when the first one holds. *)
Definition in_range (start_date : datetime) (timestamp : value)
    (end_date : datetime) : result bool :=
  b ← datetime_le_value start_date timestamp;
  if b : bool then value_le_datetime timestamp end_date else Ok false.

(** The loop shared by [calculate_total_consumption] (column 1) and
    [calculate_total_production] (column 2), which differ in nothing else:
    [for entry in data: timestamp = entry[0]; if start_date <= timestamp <=
    end_date: total += entry[column]]. *)
Fixpoint sum_column (column : nat) (data : list row)
    (start_date end_date : datetime) (total : float) : result float :=
  match data with
  | [] => Ok total
  | entry :: rest =>
      timestamp ← getitem entry 0;
      b ← in_range start_date timestamp end_date;
      if b : bool then
        x ← getitem entry column;
        total' ← float_iadd total x;
        sum_column column rest start_date end_date total'
      else sum_column column rest start_date end_date total
  end.

Definition calculate_total_consumption (data : list row)
    (start_date end_date : datetime) : result float :=
  sum_column 1 data start_date end_date Float.zero.

Definition calculate_total_production (data : list row)
    (start_date end_date : datetime) : result float :=
  sum_column 2 data start_date end_date Float.zero.

(** The loop of [calculate_average_temperature], carrying
    [total_temperature] and [count]. *)
Fixpoint temperature_loop (data : list row) (start_date end_date : datetime)
    (total_temperature : float) (count : Z) : result (float * Z) :=
  match data with
  | [] => Ok (total_temperature, count)
  | entry :: rest =>
      timestamp ← getitem entry 0;
      b ← in_range start_date timestamp end_date;
      if b : bool then
        x ← getitem entry 3;
        total' ← float_iadd total_temperature x;
        temperature_loop rest start_date end_date total' (count + 1)
      else temperature_loop rest start_date end_date total_temperature count
  end.

Definition calculate_average_temperature (data : list row)
    (start_date end_date : datetime) : result float :=
  '(total_temperature, count) ← temperature_loop data start_date end_date Float.zero 0;
  if 0 <? count
  then c ← Float.of_int count; Float.truediv total_temperature c
  else Ok Float.zero.

(** ** Formatting *)

Definition format_float (value : float) : string :=
  Str.replace "." "," (Float.format_2f value).

(** The three body lines every report appends after its title, in the
    order of the source; each may raise what its calculation raises. *)
Definition append_body (report_lines : list string) (data : list row)
    (start_date end_date : datetime) : result (list string) :=
  c ← calculate_total_consumption data start_date end_date;
  let report_lines :=
    report_lines ++ ["Total Consumption: " +:+ format_float c +:+ " kWh"] in
  p ← calculate_total_production data start_date end_date;
  let report_lines :=
    report_lines ++ ["Total Production: " +:+ format_float p +:+ " kWh"] in
  t ← calculate_average_temperature data start_date end_date;
  let report_lines :=
    report_lines ++ ["Average Temperature: " +:+ format_float t +:+ " °C"] in
  Ok report_lines.

(** ** Report generation *)

(** [data[0][0].tzinfo if data else timezone.utc] *)
Definition data_tzinfo (data : list row) : result (option Z) :=
  match data with
  | [] => Ok Datetime.utc
  | entry :: _ =>
      v ← getitem entry 0;
      match v with
      | VDatetime d => Ok (Datetime.tzinfo d)
      | VFloat _ => Raise (AttributeError "'float' object has no attribute 'tzinfo'")
      end
  end.

(** First prompt loop of [create_daily_report]: returns the accepted text
    and [strptime(text, "%d.%m.%Y").replace(tzinfo=tz)]. *)
Fixpoint prompt_start_date (fuel : nat) (tz : option Z) : prog (string * datetime) :=
  match fuel with
  | O => cut_off
  | S fuel' =>
      print "Please enter the start date (dd.mm.yyyy):";;
      line ← input "";
      let start_date_str := Str.strip line in
      match Datetime.strptime_dmY start_date_str with
      | Ok d => mret (start_date_str, Datetime.replace_tzinfo tz d)
      | Raise (ValueError _) =>
          print "Invalid date format. Please try again.";;
          prompt_start_date fuel' tz
      | Raise e => raise e
      end
  end.

(** Second prompt loop: the accepted text and the end of that day,
    [.replace(hour=23, minute=59, second=59, microsecond=999999,
    tzinfo=tz)]. *)
Fixpoint prompt_end_date (fuel : nat) (tz : option Z) : prog (string * datetime) :=
  match fuel with
  | O => cut_off
  | S fuel' =>
      print "Please enter the end date (dd.mm.yyyy):";;
      line ← input "";
      let end_date_str := Str.strip line in
      match Datetime.strptime_dmY end_date_str with
      | Ok d => mret (end_date_str, Datetime.replace_end_of_day tz d)
      | Raise (ValueError _) =>
          print "Invalid date format. Please try again.";;
          prompt_end_date fuel' tz
      | Raise e => raise e
      end
  end.

Definition create_daily_report (data : list row) : prog (list string) :=
  print "Creating Daily Report...";;
  tz ← lift (data_tzinfo data);
  '(start_date_str, start_date) ← bounded_by_input (fun fuel => prompt_start_date fuel tz);
  '(end_date_str, end_date) ← bounded_by_input (fun fuel => prompt_end_date fuel tz);
  print ("Creating Daily Report for the date range " +:+ start_date_str
         +:+ " to " +:+ end_date_str +:+ "...");;
  let report_lines : list string := [] in
  let report_lines :=
    report_lines ++ ["Daily Report for " +:+ Datetime.strftime_dmY start_date
                     +:+ " to " +:+ Datetime.strftime_dmY end_date] in
  lift (append_body report_lines data start_date end_date).

(** [int(s)] for a string of ASCII digits: a string of more than 4300
    digits is refused. *)
Definition int_of_str (s : string) : result Z :=
  if (4300 <? String.length s)%nat
  then Raise (ValueError
                ("Exceeds the limit (4300 digits) for integer string conversion: value has "
                 +:+ pretty (Z.of_nat (String.length s))
                 +:+ " digits; use sys.set_int_max_str_digits() to increase the limit"))
  else Ok (Str.digits_value 0 s).

(** The test [month_str.isdigit() and 1 <= int(month_str) <= 12]. *)
Definition month_in_range (month_str : string) : result bool :=
  if Str.isdigit month_str
  then n ← int_of_str month_str; Ok ((1 <=? n) && (n <=? 12))
  else Ok false.

(** The month prompt loop of [create_monthly_report]; the [ValueError] of
    [int] is not caught. *)
Fixpoint prompt_month (fuel : nat) : prog Z :=
  match fuel with
  | O => cut_off
  | S fuel' =>
      line ← input "";
      let month_str := Str.strip line in
      ok ← lift (month_in_range month_str);
      if ok : bool
      then lift (int_of_str month_str)
      else
        print "Invalid month. Please enter a number between 1 and 12.";;
        prompt_month fuel'
  end.

(** The bounds the monthly report passes to each calculation:
    [datetime(2025, month, 1, 0, 0, 0, 0).replace(tzinfo=tz)] and
    [datetime(2025, month, calendar.monthrange(2025, month)[1], 23, 59, 59,
    999999).replace(tzinfo=tz)]. *)
Definition monthly_range (tz : option Z) (month : Z) : result (datetime * datetime) :=
  s ← Datetime.new 2025 month 1 0 0 0 0;
  e ← Datetime.new 2025 month (Datetime.monthrange_days 2025 month) 23 59 59 999999;
  Ok (Datetime.replace_tzinfo tz s, Datetime.replace_tzinfo tz e).

Definition create_monthly_report (data : list row) : prog (list string) :=
  print "Creating Monthly Report...";;
  tz ← lift (data_tzinfo data);
  print "Please enter the month for the report (MM):";;
  month ← bounded_by_input prompt_month;
  let report_lines : list string := [] in
  let report_lines :=
    report_lines ++ ["Monthly Report for " +:+ Datetime.month_name month] in
  '(start_date, end_date) ← lift (monthly_range tz month);
  lift (append_body report_lines data start_date end_date).

(** The bounds of the yearly report: [datetime(2025, 1, 1, 0, 0, 0, 0)] and
    [datetime(2025, 12, 31, 23, 59, 59, 999999)], each with
    [.replace(tzinfo=tz)]. *)
Definition yearly_range (tz : option Z) : result (datetime * datetime) :=
  s ← Datetime.new 2025 1 1 0 0 0 0;
  e ← Datetime.new 2025 12 31 23 59 59 999999;
  Ok (Datetime.replace_tzinfo tz s, Datetime.replace_tzinfo tz e).

Definition create_yearly_report (data : list row) : prog (list string) :=
  print "Creating Yearly Report...";;
  tz ← lift (data_tzinfo data);
  let report_lines : list string := [] in
  let report_lines := report_lines ++ ["Yearly Report for 2025"] in
  '(start_date, end_date) ← lift (yearly_range tz);
  lift (append_body report_lines data start_date end_date).

(** ** Report output *)

(** [for line in lines: print(line)] *)
Fixpoint print_each (lines : list string) : prog unit :=
  match lines with
  | [] => mret ()
  | line :: rest => print line;; print_each rest
  end.

Definition print_report_to_console (lines : list string) : prog unit :=
  print (Str.nl +:+ "Report:");;
  print_each lines;;
  print ("----------------------------------------" +:+ Str.nl).

Definition report_filename (counter : Z) : string :=
  "report_" +:+ pretty counter +:+ ".txt".

(** The loop of [create_report_file], from a given [counter]. *)
Fixpoint create_report_file_from (fuel : nat) (lines : list string)
    (counter : Z) : prog unit :=
  match fuel with
  | O => cut_off
  | S fuel' =>
      let filename := report_filename counter in
      found ← os_path_exists filename;
      if negb found then
        write_lines filename lines;;
        print ("Report created: " +:+ filename)
      else create_report_file_from fuel' lines (counter + 1)
  end.

(** [create_report_file]: the search starts at 1; among one more name than
    the directory has entries there is a free one. *)
Definition create_report_file (lines : list string) : prog unit :=
  fun w => create_report_file_from (S (size (fs w))) lines 1 w.

Definition write_report_to_file (lines : list string) : prog unit :=
  print "Writing report to file 'report.txt'...";;
  write_lines "report.txt" lines.

(** ** Menus *)

Definition show_main_menu : prog string :=
  print "Main Menu:";;
  print "1. Create Daily Report for a Date Range";;
  print "2. Create Monthly Report for one Month";;
  print "3. Create Yearly Report for one Year";;
  print "4. Exit";;
  selection ← input "Please select an option (1-4): ";
  mret (Str.strip selection).

(** The loop of [show_report_menu]. *)
Fixpoint report_menu_loop (fuel : nat) (report_lines : list string) : prog unit :=
  match fuel with
  | O => cut_off
  | S fuel' =>
      line ← input "Please select an option (1-3): ";
      let selection := Str.strip line in
      if String.eqb selection "1" then
        write_report_to_file report_lines;;
        print "Report written to 'report.txt'."
      else if String.eqb selection "2" then
        create_report_file report_lines;;
        print "Report written to new file."
      else if String.eqb selection "3" then
        print "Returning to Main Menu..."
      else report_menu_loop fuel' report_lines
  end.

Definition show_report_menu (report_lines : list string) : prog unit :=
  print "Report Output Menu:";;
  print "1. Write report to 'report.txt'";;
  print "2. Create a new report";;
  print "3. Exit";;
  bounded_by_input (fun fuel => report_menu_loop fuel report_lines).

(** ** Loading *)

Section Loading.

Context `{lib : PyLib}.

Definition convert_electricity_data (electricity_data : list string) : result row :=
  let converted : row := [] in
  f0 ← getitem electricity_data 0;
  timestamp ← fromisoformat f0;
  let converted := converted ++ [VDatetime timestamp] in
  f1 ← getitem electricity_data 1;
  consumption ← py_float (Str.replace "," "." f1);
  let converted := converted ++ [VFloat consumption] in
  f2 ← getitem electricity_data 2;
  production ← py_float (Str.replace "," "." f2);
  let converted := converted ++ [VFloat production] in
  f3 ← getitem electricity_data 3;
  temperature ← py_float (Str.replace "," "." f3);
  let converted := converted ++ [VFloat temperature] in
  Ok converted.

(** The [for line in f] loop of [fetch_electricity_data]: a line whose
    first field raises [ValueError] in [fromisoformat] is passed over;
    any other line is converted, outside the inner [try]. *)
Fixpoint read_rows (lines : list string) (electricity_data : list row)
    : result (list row) :=
  match lines with
  | [] => Ok electricity_data
  | line :: rest =>
      let fields := Str.split ";" line in
      match f0 ← getitem fields 0; fromisoformat f0 with
      | Raise (ValueError _) => read_rows rest electricity_data
      | Raise e => Raise e
      | Ok _ =>
          converted ← convert_electricity_data fields;
          read_rows rest (electricity_data ++ [converted])
      end
  end.

(** [for line in f]: the lines the loop gets from a file with the bytes
    [content], and the exception that ends the iteration when the bytes
    are not UTF-8. *)
Definition file_lines (content : string) : list string * option exn :=
  match utf8_decode_error content with
  | None => (Str.text_lines content, None)
  | Some (n, msg) => (take n (Str.text_lines content), Some (UnicodeDecodeError msg))
  end.

Definition fetch_electricity_data (electricity_data_file : string)
    : prog (list row) :=
  try_except
    (content ← open_read electricity_data_file;
     let '(lines, stop) := file_lines content in
     electricity_data ← lift (read_rows lines []);
     match stop with
     | Some e => raise e
     | None => mret electricity_data
     end)
    (fun e => Some
       match e with
       | FileNotFoundError _ =>
           print ("Error: File '" +:+ electricity_data_file +:+ "' not found.");;
           mret []
       | PermissionError _ =>
           print ("Error: Permission denied when trying to read '"
                  +:+ electricity_data_file +:+ "'.");;
           mret []
       | _ =>
           print ("An unexpected error occurred: " +:+ exn_str e);;
           mret []
       end).

(** ** Main *)

(** The [while True] loop of [main]. *)
Fixpoint main_loop (fuel : nat) (electricity_data : list row) : prog unit :=
  match fuel with
  | O => cut_off
  | S fuel' =>
      selection ← show_main_menu;
      if String.eqb selection "1" then
        report_lines ← create_daily_report electricity_data;
        print_report_to_console report_lines;;
        show_report_menu report_lines;;
        main_loop fuel' electricity_data
      else if String.eqb selection "2" then
        report_lines ← create_monthly_report electricity_data;
        print_report_to_console report_lines;;
        show_report_menu report_lines;;
        main_loop fuel' electricity_data
      else if String.eqb selection "3" then
        report_lines ← create_yearly_report electricity_data;
        print_report_to_console report_lines;;
        show_report_menu report_lines;;
        main_loop fuel' electricity_data
      else if String.eqb selection "4" then
        print "Exiting the program. Goodbye!"
      else
        print "Invalid selection. Please choose a valid option (1-4).";;
        main_loop fuel' electricity_data
  end.

Definition main : prog unit :=
  let electricity_data_file := "2025.csv" in
  electricity_data ← fetch_electricity_data electricity_data_file;
  match electricity_data with
  | [] => print "No data available to generate reports."
  | _ => bounded_by_input (fun fuel => main_loop fuel electricity_data)
  end.

End Loading.

(** * Properties *)

(** ** Vocabulary *)

(** The test a calculation loop applies to one row: [timestamp = entry[0]]
    followed by [start_date <= timestamp <= end_date]. *)
Definition selects (start_date end_date : datetime) (entry : row) : result bool :=
  timestamp ← getitem entry 0;
  in_range start_date timestamp end_date.

(** A naive timestamp value and a positive float value. *)
Definition naive (y m d h mi : Z) : value :=
  VDatetime (Datetime.mk y m d h mi 0 0 None).

Definition pos_float (m : positive) (e : Z) : value :=
  VFloat (S754_finite false m e).

(** The three readings of the end-to-end scenario:
    2025-01-01T00:00 (1.0, 0.5, 2.0), 2025-01-01T12:00 (2.0, 1.0, 4.0) and
    2025-01-02T00:00 (3.0, 1.5, 6.0); [1.0] is 2^52 * 2^-52 and
    [3.0] is 3 * 2^51 * 2^-51. *)
Definition scenario_rows : list row :=
  [ [naive 2025 1 1 0 0;
     pos_float 4503599627370496 (-52); pos_float 4503599627370496 (-53);
     pos_float 4503599627370496 (-51)];
    [naive 2025 1 1 12 0;
     pos_float 4503599627370496 (-51); pos_float 4503599627370496 (-52);
     pos_float 4503599627370496 (-50)];
    [naive 2025 1 2 0 0;
     pos_float 6755399441055744 (-51); pos_float 6755399441055744 (-52);
     pos_float 6755399441055744 (-50)] ].

(** The same readings as lines of a data file, after a header line. *)
Definition scenario_lines : list string :=
  [ "Time;Consumption;Production;Temperature" +:+ Str.nl;
    "2025-01-01T00:00;1,0;0,5;2,0" +:+ Str.nl;
    "2025-01-01T12:00;2,0;1,0;4,0" +:+ Str.nl;
    "2025-01-02T00:00;3,0;1,5;6,0" +:+ Str.nl ].

(** A line's first field parses as a timestamp. *)
Definition timestamp_parses `{lib : PyLib} (fields : list string) : Prop :=
  exists f0 t, fields !! 0%nat = Some f0 /\ fromisoformat f0 = Ok t.

(** One of the three numeric fields is present but is not a number. *)
Definition malformed_numeric_field `{lib : PyLib} (fields : list string) : Prop :=
  exists (i : nat) f e, (1 <= i <= 3)%nat /\ fields !! i = Some f
    /\ py_float (Str.replace "," "." f) = Raise e.

(** A row of exactly four typed fields: datetime, float, float, float. *)
Definition well_shaped (r : row) : Prop :=
  exists t c p temp, r = [VDatetime t; VFloat c; VFloat p; VFloat temp].

(** What line-by-line skipping would guarantee: every line of the file that
    converts on its own has its row in the loaded dataset. *)
Definition keeps_valid_lines `{lib : PyLib} (content : string) (rows : list row) : Prop :=
  forall line r,
    line ∈ Str.text_lines content ->
    convert_electricity_data (Str.split ";" line) = Ok r ->
    r ∈ rows.

(** The message [fetch_electricity_data] prints for an exception. *)
Definition load_error_message (file : string) (e : exn) : string :=
  match e with
  | FileNotFoundError _ => "Error: File '" +:+ file +:+ "' not found."
  | PermissionError _ =>
      "Error: Permission denied when trying to read '" +:+ file +:+ "'."
  | _ => "An unexpected error occurred: " +:+ exn_str e
  end.

(** The world after [print(s)]. *)
Definition printed (s : string) (w : world) : world :=
  World (stdin w) (stdout w ++ [s +:+ Str.nl]) (fs w) (cwd_writable w).

(** A data file with a header, a valid line, a line whose consumption field
    is not a number, and another valid line. *)
Definition broken_content : string :=
  "Time;Consumption;Production;Temperature" +:+ Str.nl +:+
  "2025-01-01T00:00;1,0;0,5;2,0" +:+ Str.nl +:+
  "2025-01-01T12:00;abc;1,0;4,0" +:+ Str.nl +:+
  "2025-01-02T00:00;3,0;1,5;6,0" +:+ Str.nl.

(** A data file whose only data line carries six fields. *)
Definition wide_content : string :=
  "Time;Consumption;Production;Temperature;Price;Note" +:+ Str.nl +:+
  "2025-01-01T00:00;1,0;0,5;2,0;0,25;ok" +:+ Str.nl.

(** A world with nothing typed, nothing printed and one readable data
    file. *)
Definition world_with_data (content : string) : world :=
  World [] [] {[ "2025.csv" := RegularFile true true content ]} true.

(** A world in which the data file holds the scenario readings and
    [report.txt] exists but may not be written; the user asks for the
    yearly report, then for it to be written to [report.txt], and has typed
    two more choices. *)
Definition scenario_content : string :=
  "Time;Consumption;Production;Temperature" +:+ Str.nl +:+
  "2025-01-01T00:00;1,0;0,5;2,0" +:+ Str.nl +:+
  "2025-01-01T12:00;2,0;1,0;4,0" +:+ Str.nl +:+
  "2025-01-02T00:00;3,0;1,5;6,0" +:+ Str.nl.

Definition read_only_report_world : world :=
  World ["3"; "1"; "1"; "4"] []
    {[ "2025.csv" := RegularFile true true scenario_content;
       "report.txt" := RegularFile true false "kept" ]}
    true.

(** [open(name, "w")] fails in this file system. *)
Definition unwritable (name : string) (w : world) : Prop :=
  match fs w !! name with
  | Some Directory => True
  | Some (RegularFile _ wr _) => wr = false
  | None => cwd_writable w = false
  end.



(** The calendar date of [a] is not after that of [b]. *)
Definition date_not_after (a b : datetime) : bool :=
  match Datetime.lex (Datetime.year a ?= Datetime.year b)
          (Datetime.lex (Datetime.month a ?= Datetime.month b)
             (Datetime.day a ?= Datetime.day b)) with
  | Gt => false
  | _ => true
  end.

(** The text of a file after [f.write(line + "\n")] for every line, and the
    entry of a newly created report file holding it. *)
Definition file_text (lines : list string) : string :=
  foldl (fun text line => text +:+ (line +:+ Str.nl)) "" lines.

Definition report_file (lines : list string) : node :=
  RegularFile true true (file_text lines).

(** [n] is the smallest integer from 1 on for which no entry
    [report_<n>.txt] exists. *)
Definition first_free (files : gmap string node) (n : Z) : Prop :=
  1 <= n
  /\ files !! report_filename n = None
  /\ forall k, 1 <= k < n -> is_Some (files !! report_filename k).

(** The rows a calculation loop adds up: those for which the range test
    evaluates to [True], in file order. *)
Definition is_selected (start_date end_date : datetime) (entry : row) : bool :=
  match selects start_date end_date entry with
  | Ok true => true
  | _ => false
  end.

Fixpoint selected (start_date end_date : datetime) (data : list row) : list row :=
  match data with
  | [] => []
  | entry :: rest =>
      if is_selected start_date end_date entry
      then entry :: selected start_date end_date rest
      else selected start_date end_date rest
  end.

(** The float in a column of a row of four typed fields. *)
Definition float_at (column : nat) (entry : row) : float :=
  match entry !! column with
  | Some (VFloat f) => f
  | _ => Float.zero
  end.

(** The left-to-right sum [((0.0 + x1) + x2) + ...] a loop computes. *)
Definition float_sum (xs : list float) : float := foldl Float.add Float.zero xs.


(** Three readings with consumption and production 0.1, 0.2 and 0.3, the
    first on 1 January 2025 and the other two on 2 January. *)
Definition rounding_rows : list row :=
  [ [naive 2025 1 1 0 0;
     pos_float 7205759403792794 (-56); pos_float 7205759403792794 (-56);
     pos_float 4503599627370496 (-51)];
    [naive 2025 1 2 0 0;
     pos_float 7205759403792794 (-55); pos_float 7205759403792794 (-55);
     pos_float 4503599627370496 (-51)];
    [naive 2025 1 2 12 0;
     pos_float 5404319552844595 (-54); pos_float 5404319552844595 (-54);
     pos_float 4503599627370496 (-51)] ].

(** The same readings as lines of a data file. *)
Definition rounding_lines : list string :=
  [ "2025-01-01T00:00;0,1;0,1;2,0" +:+ Str.nl;
    "2025-01-02T00:00;0,2;0,2;2,0" +:+ Str.nl;
    "2025-01-02T12:00;0,3;0,3;2,0" +:+ Str.nl ].

(** 1 and 2 January 2025, from the first to the last microsecond. *)
Definition jan_1_start : datetime := Datetime.mk 2025 1 1 0 0 0 0 None.
Definition jan_1_end : datetime := Datetime.mk 2025 1 1 23 59 59 999999 None.

(** The row a line gives when it converts. *)
Definition row_of_line `{lib : PyLib} (line : string) (r : row) : Prop :=
  convert_electricity_data (Str.split ";" line) = Ok r.

(** The first field of a line raises [ValueError] in [fromisoformat]: the
    line is passed over as a header. *)
Definition passed_over `{lib : PyLib} (line : string) : Prop :=
  exists f0 msg, Str.split ";" line !! 0%nat = Some f0
                 /\ fromisoformat f0 = Raise (ValueError msg).

(** The first field of a line parses as a timestamp, as a test. *)
Definition is_data_line `{lib : PyLib} (line : string) : bool :=
  match f0 ← getitem (Str.split ";" line) 0; fromisoformat f0 with
  | Ok _ => true
  | Raise _ => false
  end.

(** A datetime whose fields are in range, as every constructed
    [datetime.datetime] is. *)
Definition well_formed (d : datetime) : Prop :=
  Datetime.valid_date (Datetime.year d) (Datetime.month d) (Datetime.day d) = true
  /\ Datetime.valid_time (Datetime.hour d) (Datetime.minute d)
       (Datetime.second d) (Datetime.microsecond d) = true.

(** A string without line breaks (no LF, no CR). *)
Fixpoint no_line_break (s : string) : bool :=
  match s with
  | EmptyString => true
  | String c r =>
      negb (Str.ascii_eqb c Str.LF) && negb (Str.ascii_eqb c Str.CR)
      && no_line_break r
  end.

(** A computation that always ends with a result or an exception (it is
    never cut off) and reads from the console without ever adding to the
    input still to be read. *)
Definition steady {A} (m : prog A) : Prop :=
  forall w, exists r w',
    m w = Some (r, w') /\ (length (stdin w') <= length (stdin w))%nat.

(** The menu loop of [main] on a loaded dataset. *)
Definition session `{lib : PyLib} (electricity_data : list row) : prog unit :=
  bounded_by_input (fun fuel => main_loop fuel electricity_data).

(** A loop given more rounds than there are input lines left. *)
Definition steady_loop {A} (loop : nat -> prog A) : Prop :=
  forall fuel w, (length (stdin w) < fuel)%nat ->
    exists r w',
      loop fuel w = Some (r, w') /\ (length (stdin w') <= length (stdin w))%nat.

(** The same for worlds with at most [n] lines left to read. *)
Definition steady_upto (n : nat) {A} (m : prog A) : Prop :=
  forall w, (length (stdin w) <= n)%nat ->
    exists r w',
      m w = Some (r, w') /\ (length (stdin w') <= length (stdin w))%nat.




(** The texts of the two menus, as printed. *)
Definition main_menu_text : list string :=
  [ "Main Menu:" +:+ Str.nl;
    "1. Create Daily Report for a Date Range" +:+ Str.nl;
    "2. Create Monthly Report for one Month" +:+ Str.nl;
    "3. Create Yearly Report for one Year" +:+ Str.nl;
    "4. Exit" +:+ Str.nl;
    "Please select an option (1-4): " ].

Definition report_menu_text : list string :=
  [ "Report Output Menu:" +:+ Str.nl;
    "1. Write report to 'report.txt'" +:+ Str.nl;
    "2. Create a new report" +:+ Str.nl;
    "3. Exit" +:+ Str.nl ].

(** U+00A0, the no-break space, which [str.strip()] removes like a space. *)
Definition nbsp : string :=
  String (Ascii.ascii_of_nat 194) (String (Ascii.ascii_of_nat 160) EmptyString).

(** A typed line that is none of the given menu choices. *)
Definition no_choice (choices : list string) (line : string) : Prop :=
  Forall (fun c => String.eqb (Str.strip line) c = false) choices.

(** The library parsers raise [ValueError] only, as [float] and
    [datetime.fromisoformat] do on a string. *)
Definition raises_value_error_only `{lib : PyLib} : Prop :=
  (forall s e, py_float s = Raise e -> exists msg, e = ValueError msg)
  /\ (forall s e, fromisoformat s = Raise e -> exists msg, e = ValueError msg).

(** A row that starts with a timestamp carrying the tzinfo [tz]. *)
Definition stamped (tz : option Z) (entry : row) : Prop :=
  exists ts rest, entry = VDatetime ts :: rest /\ Datetime.tzinfo ts = tz.

(** The body of a report over a range that selects nothing. *)
Definition zero_body : list string :=
  [ "Total Consumption: 0,00 kWh";
    "Total Production: 0,00 kWh";
    "Average Temperature: 0,00 °C" ].

(** A dataset whose first timestamp is aware (UTC) and whose second one is
    naive. *)
Definition mixed_rows : list row :=
  [ [VDatetime (Datetime.mk 2025 1 1 0 0 0 0 (Some 0));
     pos_float 4503599627370496 (-52); pos_float 4503599627370496 (-53);
     pos_float 4503599627370496 (-51)];
    [naive 2025 1 1 12 0;
     pos_float 4503599627370496 (-51); pos_float 4503599627370496 (-52);
     pos_float 4503599627370496 (-50)] ].

(** ** The end-to-end scenario *)

Lemma scenario_loaded :
  read_rows (lib := Reference.lib) scenario_lines [] = Ok scenario_rows.
Proof. vm_compute. reflexivity. Qed.

(** C1: on the three scenario readings, the daily report for the range
    01.01.2025 to 01.01.2025 consists of its title and the body lines with
    the values "3,00 kWh", "1,50 kWh" and "3,00 °C"; the two dates are read
    from the console, whatever else the world holds. *)
Theorem daily_report_scenario rest out files cw :
  create_daily_report scenario_rows
    (World ("01.01.2025" :: "01.01.2025" :: rest) out files cw)
  = Some (Ok [ "Daily Report for 01.01.2025 to 01.01.2025";
               "Total Consumption: 3,00 kWh";
               "Total Production: 1,50 kWh";
               "Average Temperature: 3,00 °C" ],
          World rest
            (out ++ [ "Creating Daily Report..." +:+ Str.nl;
                      "Please enter the start date (dd.mm.yyyy):" +:+ Str.nl;
                      "Please enter the end date (dd.mm.yyyy):" +:+ Str.nl;
                      "Creating Daily Report for the date range 01.01.2025 to 01.01.2025..."
                        +:+ Str.nl ])
            files cw).
Proof.
  assert (E : forall a b c d : string,
             out ++ [a; b; c; d] = (((out ++ [a]) ++ [b]) ++ [c]) ++ [d])
    by (intros; by rewrite <- !app_assoc).
  rewrite E. vm_compute. reflexivity.
Qed.

(** ** Ranges that select nothing *)

Lemma sum_column_skip column data s e total :
  Forall (fun entry => selects s e entry = Ok false) data ->
  sum_column column data s e total = Ok total.
Proof.
  induction 1 as [|entry rest Hsel _ IH]; simpl; [done|].
  unfold selects in Hsel.
  destruct (getitem entry 0) as [timestamp|]; simpl in *; [|done].
  by rewrite Hsel.
Qed.

Lemma temperature_loop_skip data s e total count :
  Forall (fun entry => selects s e entry = Ok false) data ->
  temperature_loop data s e total count = Ok (total, count).
Proof.
  induction 1 as [|entry rest Hsel _ IH]; simpl; [done|].
  unfold selects in Hsel.
  destruct (getitem entry 0) as [timestamp|]; simpl in *; [|done].
  by rewrite Hsel.
Qed.

(** C2: when the range test is false for every reading of the dataset (as
    it is for the empty dataset), the two totals and the average are exactly
    [0.0]: no NaN, no division by zero, no exception. *)
Theorem empty_selection_gives_zero (data : list row) (start_date end_date : datetime) :
  Forall (fun entry => selects start_date end_date entry = Ok false) data ->
  calculate_total_consumption data start_date end_date = Ok Float.zero
  /\ calculate_total_production data start_date end_date = Ok Float.zero
  /\ calculate_average_temperature data start_date end_date = Ok Float.zero.
Proof.
  intros Hnone. unfold calculate_total_consumption, calculate_total_production,
    calculate_average_temperature.
  rewrite !sum_column_skip by done.
  by rewrite temperature_loop_skip.
Qed.

Lemma empty_selection_gives_zero_witness :
  let march_1 := Datetime.mk 2025 3 1 0 0 0 0 None in
  let march_31 := Datetime.mk 2025 3 31 23 59 59 999999 None in
  Forall (fun entry => selects march_1 march_31 entry = Ok false) scenario_rows
  /\ calculate_total_consumption scenario_rows march_1 march_31 = Ok Float.zero
  /\ calculate_total_production scenario_rows march_1 march_31 = Ok Float.zero
  /\ calculate_average_temperature scenario_rows march_1 march_31 = Ok Float.zero.
Proof.
  intros march_1 march_31.
  assert (H : Forall (fun entry => selects march_1 march_31 entry = Ok false)
                scenario_rows)
    by (repeat constructor).
  split; [exact H|].
  exact (empty_selection_gives_zero scenario_rows march_1 march_31 H).
Defined.

(** The empty dataset, for every range. *)
Corollary empty_dataset_gives_zero (start_date end_date : datetime) :
  calculate_total_consumption [] start_date end_date = Ok Float.zero
  /\ calculate_total_production [] start_date end_date = Ok Float.zero
  /\ calculate_average_temperature [] start_date end_date = Ok Float.zero.
Proof. by apply empty_selection_gives_zero. Qed.

(** The test itself fails, and the calculation with it, when a naive bound
    meets an aware timestamp. *)
Lemma mixed_awareness_raises (start_date end_date d : datetime) (rest : row)
    (data : list row) (off : Z) :
  Datetime.tzinfo start_date = None ->
  Datetime.tzinfo d = Some off ->
  exists e, calculate_total_consumption ((VDatetime d :: rest) :: data)
              start_date end_date = Raise (TypeError e).
Proof.
  intros Hs Hd. unfold calculate_total_consumption. simpl.
  unfold in_range, datetime_le_value, Datetime.le, Datetime.compare.
  rewrite Hs, Hd. simpl. eauto.
Qed.

(** ** Loading *)

Lemma getitem_lookup {A} (l : list A) i x : l !! i = Some x -> getitem l i = Ok x.
Proof. unfold getitem. by intros ->. Qed.

Section LoaderFacts.

Context `{lib : PyLib}.

Lemma malformed_number_fails_conversion fields :
  malformed_numeric_field fields ->
  exists e, convert_electricity_data fields = Raise e.
Proof.
  intros (i & f & e & Hi & Hf & He).
  unfold convert_electricity_data.
  destruct fields as [|f0 [|f1 [|f2 [|f3 extra]]]];
    destruct i as [|[|[|[|i]]]]; simpl in Hf; try lia; try done;
    simplify_eq; simpl;
    repeat match goal with
      | |- context [fromisoformat ?x] => destruct (fromisoformat x); simpl
      | |- context [py_float ?x] => destruct (py_float x) eqn:?; simpl; simplify_eq
      end; eauto.
Qed.

(** One line that passes the timestamp test but does not convert makes the
    whole loop raise, whatever was collected before. *)
Lemma read_rows_aborts lines acc line :
  line ∈ lines ->
  timestamp_parses (Str.split ";" line) ->
  (exists e, convert_electricity_data (Str.split ";" line) = Raise e) ->
  exists e, read_rows lines acc = Raise e.
Proof.
  intros Hin (f0 & t & Hf0 & Ht) [e He].
  revert acc. induction lines as [|l rest IH]; intros acc;
    [by apply elem_of_nil in Hin|].
  simpl.
  destruct (decide (l = line)) as [->|Hne].
  - rewrite (getitem_lookup _ _ _ Hf0). simpl. rewrite Ht, He. simpl. eauto.
  - apply elem_of_cons in Hin as [?|Hin]; [congruence|].
    destruct (getitem (Str.split ";" l) 0) as [g0|e0]; simpl;
      [|destruct e0; eauto].
    destruct (fromisoformat g0) as [t0|[]]; simpl; eauto.
    destruct (convert_electricity_data (Str.split ";" l)); simpl; eauto.
Qed.

Lemma convert_shape fields r :
  convert_electricity_data fields = Ok r -> well_shaped r.
Proof.
  unfold convert_electricity_data, well_shaped. intros H.
  repeat match type of H with
    | context [getitem ?l ?i] => destruct (getitem l i); simpl in H; [|done]
    | context [fromisoformat ?x] => destruct (fromisoformat x); simpl in H; [|done]
    | context [py_float ?x] => destruct (py_float x); simpl in H; [|done]
    end.
  simplify_eq. eauto.
Qed.

Lemma convert_ignores_extra f0 f1 f2 f3 extra :
  convert_electricity_data (f0 :: f1 :: f2 :: f3 :: extra)
  = convert_electricity_data [f0; f1; f2; f3].
Proof. reflexivity. Qed.

(** A successful run of the loop keeps what was collected, adds only rows
    of four typed fields, and holds the row of every line that passed the
    timestamp test. *)
Lemma read_rows_spec lines acc rows :
  read_rows lines acc = Ok rows ->
  (forall r, r ∈ acc -> r ∈ rows)
  /\ (Forall well_shaped acc -> Forall well_shaped rows)
  /\ (forall line, line ∈ lines -> timestamp_parses (Str.split ";" line) ->
       exists r, convert_electricity_data (Str.split ";" line) = Ok r /\ r ∈ rows).
Proof.
  revert acc. induction lines as [|l rest IH]; intros acc; simpl.
  - intros [= ->]. split_and!; [done..|]. intros ? []%elem_of_nil.
  - destruct (getitem (Str.split ";" l) 0) as [g0|e0] eqn:Hg; simpl.
    2:{ destruct e0; try done. intros H. destruct (IH _ H) as (Ha & Hs & Hl).
        split_and!; [done..|].
        intros line [->|Hin]%elem_of_cons; [|by apply Hl].
        intros (f0 & t & Hf0 & _). rewrite (getitem_lookup _ _ _ Hf0) in Hg. done. }
    destruct (fromisoformat g0) as [t0|e0] eqn:Ht; simpl.
    + destruct (convert_electricity_data (Str.split ";" l)) as [r0|] eqn:Hc;
        simpl; [|done].
      intros H. destruct (IH _ H) as (Ha & Hs & Hl). split_and!.
      * intros r Hr. apply Ha, elem_of_app. by left.
      * intros Hacc. apply Hs, Forall_app. split; [done|].
        constructor; [|constructor]. by eapply convert_shape.
      * intros line [->|Hin]%elem_of_cons; [|by apply Hl].
        intros _. exists r0. split; [done|]. apply Ha, elem_of_app. right. by left.
    + destruct e0; try done. intros H. destruct (IH _ H) as (Ha & Hs & Hl).
      split_and!; [done..|].
      intros line [->|Hin]%elem_of_cons; [|by apply Hl].
      intros (f0 & t & Hf0 & Hp). rewrite (getitem_lookup _ _ _ Hf0) in Hg.
      simplify_eq. congruence.
Qed.

(** The loader on a readable file whose bytes are UTF-8: the rows of the
    loop, or on any exception one message and the empty dataset. *)
Lemma fetch_readable file w wr content :
  fs w !! file = Some (RegularFile true wr content) ->
  utf8_decode_error content = None ->
  fetch_electricity_data file w =
    match read_rows (Str.text_lines content) [] with
    | Ok rows => Some (Ok rows, w)
    | Raise e => Some (Ok [], printed (load_error_message file e) w)
    end.
Proof.
  intros Hf Hutf.
  unfold fetch_electricity_data, try_except, open_read, file_lines, mbind,
    prog_bind; simpl.
  rewrite Hf, Hutf. unfold lift.
  destruct (read_rows (Str.text_lines content) []) as [rows|e]; [done|].
  by destruct e.
Qed.

(** The loader on a readable file whose bytes are not UTF-8: the message
    for the first exception, that of a line delivered before the decoder
    fails or that of the decoder, and the empty dataset. *)
Lemma fetch_undecoded file w wr content n msg :
  fs w !! file = Some (RegularFile true wr content) ->
  utf8_decode_error content = Some (n, msg) ->
  fetch_electricity_data file w =
    Some (Ok [],
          printed
            (load_error_message file
               match read_rows (take n (Str.text_lines content)) [] with
               | Ok _ => UnicodeDecodeError msg
               | Raise e => e
               end) w).
Proof.
  intros Hf Hutf.
  unfold fetch_electricity_data, try_except, open_read, file_lines, mbind,
    prog_bind; simpl.
  rewrite Hf, Hutf. unfold lift.
  destruct (read_rows (take n (Str.text_lines content)) []) as [rows|e]; [done|].
  by destruct e.
Qed.

(** The loader never raises and never stops short: it returns a dataset
    and leaves the world as it was, or with one message printed. *)
Lemma fetch_cases file w :
  (exists wr content rows,
      fs w !! file = Some (RegularFile true wr content)
      /\ utf8_decode_error content = None
      /\ read_rows (Str.text_lines content) [] = Ok rows
      /\ fetch_electricity_data file w = Some (Ok rows, w))
  \/ (exists e,
      fetch_electricity_data file w
      = Some (Ok [], printed (load_error_message file e) w)).
Proof.
  destruct (fs w !! file) as [[r wr content|]|] eqn:Hf.
  - destruct r.
    + destruct (utf8_decode_error content) as [[n msg]|] eqn:Hutf.
      { right. eexists. by apply (fetch_undecoded _ _ _ _ _ _ Hf Hutf). }
      rewrite (fetch_readable _ _ _ _ Hf Hutf).
      destruct (read_rows (Str.text_lines content) []) as [rows|e] eqn:Hr;
        [left|right]; eauto 10.
    + right. exists (PermissionError "").
      unfold fetch_electricity_data, try_except, open_read, mbind, prog_bind.
      simpl. rewrite Hf. reflexivity.
  - right. eexists (IsADirectoryError _).
    unfold fetch_electricity_data, try_except, open_read, mbind, prog_bind.
    simpl. rewrite Hf. reflexivity.
  - right. exists (FileNotFoundError "").
    unfold fetch_electricity_data, try_except, open_read, mbind, prog_bind.
    simpl. rewrite Hf. reflexivity.
Qed.

(** With parsers that raise [ValueError] only, the conversion of a line
    and the loop raise [ValueError] or [IndexError] only. *)
Lemma convert_raises fields e :
  raises_value_error_only ->
  convert_electricity_data fields = Raise e ->
  (exists msg, e = ValueError msg) \/ (exists msg, e = IndexError msg).
Proof.
  intros [Hfloat Hiso]. unfold convert_electricity_data, getitem.
  repeat match goal with
    | |- context [?l !! ?i] => destruct (l !! i); simpl; [|intros [= <-]; eauto]
    | |- context [fromisoformat ?x] =>
        destruct (fromisoformat x) eqn:?; simpl;
        [|intros [= <-]; left; eapply Hiso; eassumption]
    | |- context [py_float ?x] =>
        destruct (py_float x) eqn:?; simpl;
        [|intros [= <-]; left; eapply Hfloat; eassumption]
    end.
  done.
Qed.

Lemma read_rows_raises lines acc e :
  raises_value_error_only ->
  read_rows lines acc = Raise e ->
  (exists msg, e = ValueError msg) \/ (exists msg, e = IndexError msg).
Proof.
  intros Hlib. revert acc. induction lines as [|l rest IH]; intros acc; [done|].
  simpl. unfold getitem at 1.
  destruct (Str.split ";" l !! 0%nat) as [g0|]; simpl.
  - destruct (fromisoformat g0) as [t0|e0] eqn:Ht; simpl.
    + destruct (convert_electricity_data (Str.split ";" l)) as [r|e1] eqn:Hc; simpl.
      * apply IH.
      * intros [= <-]. by eapply convert_raises.
    + destruct (proj2 Hlib _ _ Ht) as [msg ->]. apply IH.
  - intros [= <-]. eauto.
Qed.

Lemma unexpected_error_message file e :
  (exists msg, e = ValueError msg) \/ (exists msg, e = IndexError msg) ->
  load_error_message file e = "An unexpected error occurred: " +:+ exn_str e.
Proof. by intros [[msg ->]|[msg ->]]. Qed.

(** C3 (as the code behaves): a data line whose first field parses as a
    timestamp and which has a malformed numeric field is not skipped on its
    own; it aborts the load. One "An unexpected error occurred" message is
    printed and the dataset returned is empty, whatever the other lines of
    the file are. *)
Theorem malformed_line_aborts_load (file : string) (w : world) (wr : bool)
    (content line : string) :
  raises_value_error_only ->
  fs w !! file = Some (RegularFile true wr content) ->
  line ∈ Str.text_lines content ->
  timestamp_parses (Str.split ";" line) ->
  malformed_numeric_field (Str.split ";" line) ->
  exists msg,
    fetch_electricity_data file w
    = Some (Ok [], printed ("An unexpected error occurred: " +:+ msg) w).
Proof.
  intros Hlib Hf Hin Hts Hbad.
  destruct (utf8_decode_error content) as [[n msg]|] eqn:Hutf.
  - rewrite (fetch_undecoded _ _ _ _ _ _ Hf Hutf).
    destruct (read_rows (take n (Str.text_lines content)) []) as [rows|e] eqn:Hr.
    + by exists msg.
    + exists (exn_str e).
      by rewrite (unexpected_error_message _ _ (read_rows_raises _ _ _ Hlib Hr)).
  - destruct (read_rows_aborts (Str.text_lines content) [] line Hin Hts
                (malformed_number_fails_conversion _ Hbad)) as [e He].
    exists (exn_str e). rewrite (fetch_readable _ _ _ _ Hf Hutf), He.
    by rewrite (unexpected_error_message _ _ (read_rows_raises _ _ _ Hlib He)).
Qed.

(** C10: every row of a loaded dataset has exactly four typed fields
    (datetime, float, float, float); the conversion reads the first four
    fields of a line only; and when the bytes of the file are UTF-8 and
    the load succeeds, a line with a parsing first field and more than four
    fields has the row of its first four fields in the dataset. *)
Theorem loaded_rows_have_four_typed_fields :
  (forall file w rows w',
      fetch_electricity_data file w = Some (Ok rows, w') ->
      Forall well_shaped rows)
  /\ (forall f0 f1 f2 f3 extra,
      convert_electricity_data (f0 :: f1 :: f2 :: f3 :: extra)
      = convert_electricity_data [f0; f1; f2; f3])
  /\ (forall file w wr content rows line f0 f1 f2 f3 f4 extra t,
      fs w !! file = Some (RegularFile true wr content) ->
      utf8_decode_error content = None ->
      read_rows (Str.text_lines content) [] = Ok rows ->
      line ∈ Str.text_lines content ->
      Str.split ";" line = f0 :: f1 :: f2 :: f3 :: f4 :: extra ->
      fromisoformat f0 = Ok t ->
      fetch_electricity_data file w = Some (Ok rows, w)
      /\ exists c p temp,
          py_float (Str.replace "," "." f1) = Ok c
          /\ py_float (Str.replace "," "." f2) = Ok p
          /\ py_float (Str.replace "," "." f3) = Ok temp
          /\ [VDatetime t; VFloat c; VFloat p; VFloat temp] ∈ rows).
Proof.
  split_and!.
  - intros file w rows w' Hfetch.
    destruct (fetch_cases file w)
      as [(wr & content & rows' & _ & _ & Hr & Hf)|[e Hf]];
      rewrite Hf in Hfetch; simplify_eq; [|constructor].
    by apply (read_rows_spec _ _ _ Hr).
  - intros. apply convert_ignores_extra.
  - intros file w wr content rows line f0 f1 f2 f3 f4 extra t Hf Hutf Hr Hin Hsplit Ht.
    split; [by rewrite (fetch_readable _ _ _ _ Hf Hutf), Hr|].
    destruct (read_rows_spec _ _ _ Hr) as (_ & _ & Hl).
    destruct (Hl line Hin) as (r & Hc & Hrow).
    { exists f0, t. by rewrite Hsplit. }
    rewrite Hsplit in Hc. unfold convert_electricity_data in Hc. simpl in Hc.
    rewrite Ht in Hc. simpl in Hc.
    destruct (py_float (Str.replace "," "." f1)) as [c|]; simpl in Hc; [|done].
    destruct (py_float (Str.replace "," "." f2)) as [p|]; simpl in Hc; [|done].
    destruct (py_float (Str.replace "," "." f3)) as [temp|]; simpl in Hc; [|done].
    simplify_eq. eauto 10.
Qed.

End LoaderFacts.

(** The load of [broken_content] with the reference parsers: the valid
    first reading is lost together with the malformed line. *)
Lemma malformed_line_not_skipped :
  fetch_electricity_data (lib := Reference.lib) "2025.csv" (world_with_data broken_content)
  = Some (Ok [],
          printed "An unexpected error occurred: could not convert string to float: 'abc'"
            (world_with_data broken_content))
  /\ ~ keeps_valid_lines (lib := Reference.lib) broken_content [].
Proof.
  split; [vm_compute; reflexivity|].
  intros H.
  specialize (H ("2025-01-01T00:00;1,0;0,5;2,0" +:+ Str.nl)
                [naive 2025 1 1 0 0; pos_float 4503599627370496 (-52);
                 pos_float 4503599627370496 (-53); pos_float 4503599627370496 (-51)]).
  eapply elem_of_nil, H; [|vm_compute; reflexivity].
  vm_compute. right; left.
Qed.

Lemma reference_raises_value_error_only :
  raises_value_error_only (lib := Reference.lib).
Proof.
  split; intros s e; simpl.
  - unfold Reference.float_of_str.
    repeat match goal with
      | |- context [match ?x with _ => _ end] => destruct x
      end; intros [= <-]; eauto.
  - unfold Reference.datetime_fromisoformat.
    destruct (Reference.parse_isoformat s); intros [= <-]; eauto.
Qed.

Lemma malformed_line_aborts_load_witness :
  exists msg,
    fetch_electricity_data (lib := Reference.lib) "2025.csv" (world_with_data broken_content)
    = Some (Ok [], printed ("An unexpected error occurred: " +:+ msg)
                     (world_with_data broken_content)).
Proof.
  apply (malformed_line_aborts_load (lib := Reference.lib) "2025.csv"
           (world_with_data broken_content) true broken_content
           ("2025-01-01T12:00;abc;1,0;4,0" +:+ Str.nl)).
  - exact reference_raises_value_error_only.
  - vm_compute. reflexivity.
  - vm_compute. right; right; left.
  - exists "2025-01-01T12:00", (Datetime.mk 2025 1 1 12 0 0 0 None).
    split; vm_compute; reflexivity.
  - exists 1%nat, "abc", (ValueError "could not convert string to float: 'abc'").
    split; [lia|]. split; vm_compute; reflexivity.
Defined.

Lemma loaded_rows_have_four_typed_fields_witness :
  fetch_electricity_data (lib := Reference.lib) "2025.csv" (world_with_data wide_content)
  = Some (Ok [ [naive 2025 1 1 0 0; pos_float 4503599627370496 (-52);
                pos_float 4503599627370496 (-53); pos_float 4503599627370496 (-51)] ],
          world_with_data wide_content)
  /\ exists c p temp,
      Reference.float_of_str "1.0" = Ok c
      /\ Reference.float_of_str "0.5" = Ok p
      /\ Reference.float_of_str "2.0" = Ok temp
      /\ [VDatetime (Datetime.mk 2025 1 1 0 0 0 0 None); VFloat c; VFloat p; VFloat temp]
         ∈ [ [naive 2025 1 1 0 0; pos_float 4503599627370496 (-52);
              pos_float 4503599627370496 (-53); pos_float 4503599627370496 (-51)] ].
Proof.
  apply (proj2 (proj2 (loaded_rows_have_four_typed_fields (lib := Reference.lib)))
           "2025.csv" (world_with_data wide_content) true wide_content _
           ("2025-01-01T00:00;1,0;0,5;2,0;0,25;ok" +:+ Str.nl)
           "2025-01-01T00:00" "1,0" "0,5" "2,0" "0,25" ["ok" +:+ Str.nl]).
  - vm_compute. reflexivity.
  - vm_compute. reflexivity.
  - vm_compute. reflexivity.
  - vm_compute. right; left.
  - vm_compute. reflexivity.
  - vm_compute. reflexivity.
Defined.

(** ** Start of the session *)

Section SessionFacts.

Context `{lib : PyLib}.

(** C7: when the initial load yields an empty dataset, [main] prints the
    "no data" line and returns: nothing is read from the console, the files
    are untouched, and apart from at most one load message nothing else is
    printed, in particular no menu. *)
Theorem no_data_skips_menu (w w1 : world) :
  fetch_electricity_data "2025.csv" w = Some (Ok [], w1) ->
  main w = Some (Ok (), printed "No data available to generate reports." w1)
  /\ stdin w1 = stdin w
  /\ fs w1 = fs w
  /\ exists extra,
      stdout (printed "No data available to generate reports." w1)
      = stdout w ++ extra
      /\ (("Main Menu:" +:+ Str.nl) ∉ extra)
      /\ last extra = Some ("No data available to generate reports." +:+ Str.nl).
Proof.
  intros Hfetch. split.
  { unfold main, mbind, prog_bind. by rewrite Hfetch. }
  destruct (fetch_cases "2025.csv" w)
    as [(wr & content & rows & _ & _ & _ & Hf)|[e Hf]];
    rewrite Hf in Hfetch; simplify_eq.
  - split_and!; [done..|]. eexists [_]. split_and!; [done| |done].
    intros [?|[]%elem_of_nil]%elem_of_cons. done.
  - split_and!; [done..|]. eexists [_; _]. simpl. rewrite <- app_assoc.
    split_and!; [done| |done].
    intros [?|[?|[]%elem_of_nil]%elem_of_cons]%elem_of_cons; [|done].
    by destruct e.
Qed.

End SessionFacts.

Lemma no_data_skips_menu_witness :
  let w := World ["1"; "4"] [] ∅ true in
  let w1 := printed "Error: File '2025.csv' not found." w in
  fetch_electricity_data (lib := Reference.lib) "2025.csv" w = Some (Ok [], w1)
  /\ main (lib := Reference.lib) w
     = Some (Ok (), printed "No data available to generate reports." w1).
Proof.
  intros w w1.
  assert (H : fetch_electricity_data (lib := Reference.lib) "2025.csv" w
              = Some (Ok [], w1)) by (vm_compute; reflexivity).
  split; [exact H|].
  exact (proj1 (no_data_skips_menu (lib := Reference.lib) w w1 H)).
Defined.

(** ** Monthly report *)

(** The days-in-month rule for February. *)
Lemma february_days (y : Z) :
  Datetime.monthrange_days y 2 = if Datetime.isleap y then 29 else 28.
Proof. unfold Datetime.monthrange_days. simpl. by destruct (Datetime.isleap y). Qed.








(** ** Order of the bounds of a range *)

Lemma strptime_midnight s d :
  Datetime.strptime_dmY s = Ok d ->
  Datetime.hour d = 0 /\ Datetime.minute d = 0 /\ Datetime.second d = 0
  /\ Datetime.microsecond d = 0.
Proof.
  unfold Datetime.strptime_dmY.
  destruct (Str.split "." s) as [|ds [|ms [|ys [|? ?]]]]; try done.
  destruct (Datetime.parse_day ds), (Datetime.parse_month ms),
    (Datetime.parse_year ys); try done.
  destruct (Datetime.valid_date _ _ _); [|done].
  by intros [= <-].
Qed.

Lemma prompt_start_date_accepted fuel tz w str start_date w' :
  prompt_start_date fuel tz w = Some (Ok (str, start_date), w') ->
  exists d, Datetime.strptime_dmY str = Ok d
            /\ start_date = Datetime.replace_tzinfo tz d.
Proof.
  revert w. induction fuel as [|fuel IH]; intros w; [done|].
  simpl. unfold mbind, prog_bind, print, write_stdout, input. simpl.
  destruct (stdin w) as [|line rest]; [done|]. simpl.
  destruct (Datetime.strptime_dmY (Str.strip line)) as [d|e] eqn:Hd.
  - intros [= <- <- <-]. eauto.
  - destruct e; try done. apply IH.
Qed.

Lemma prompt_end_date_accepted fuel tz w str end_date w' :
  prompt_end_date fuel tz w = Some (Ok (str, end_date), w') ->
  exists d, Datetime.strptime_dmY str = Ok d
            /\ end_date = Datetime.replace_end_of_day tz d.
Proof.
  revert w. induction fuel as [|fuel IH]; intros w; [done|].
  simpl. unfold mbind, prog_bind, print, write_stdout, input. simpl.
  destruct (stdin w) as [|line rest]; [done|]. simpl.
  destruct (Datetime.strptime_dmY (Str.strip line)) as [d|e] eqn:Hd.
  - intros [= <- <- <-]. eauto.
  - destruct e; try done. apply IH.
Qed.

Lemma le_same_tzinfo (a b : datetime) :
  Datetime.tzinfo a = Datetime.tzinfo b ->
  Datetime.le a b
  = Ok (match Datetime.base_compare a b with Gt => false | _ => true end).
Proof.
  unfold Datetime.le, Datetime.compare. intros <-.
  destruct (Datetime.tzinfo a); simpl; [|done].
  by rewrite Z.eqb_refl.
Qed.

(** The range test between two bounds that carry the timestamp's own
    [tzinfo] compares the field tuples. *)
Lemma in_range_same_tzinfo (s e ts : datetime) :
  Datetime.tzinfo s = Datetime.tzinfo ts ->
  Datetime.tzinfo e = Datetime.tzinfo ts ->
  in_range s (VDatetime ts) e
  = Ok (match Datetime.base_compare s ts with Gt => false | _ => true end
        && match Datetime.base_compare ts e with Gt => false | _ => true end).
Proof.
  intros Hs He. unfold in_range, datetime_le_value, value_le_datetime.
  rewrite !le_same_tzinfo by congruence. simpl.
  by destruct (Datetime.base_compare s ts).
Qed.

(** A comparison of the field tuples that is not [Gt] leaves the dates in
    order. *)
Lemma base_compare_dates (a b : datetime) :
  Datetime.base_compare a b <> Gt -> date_not_after a b = true.
Proof.
  unfold Datetime.base_compare, date_not_after, Datetime.lex.
  destruct (Datetime.year a ?= Datetime.year b); try done.
  destruct (Datetime.month a ?= Datetime.month b); try done.
  destruct (Datetime.day a ?= Datetime.day b); try done.
Qed.

Lemma date_not_after_trans (a b c : datetime) :
  date_not_after a b = true -> date_not_after b c = true ->
  date_not_after a c = true.
Proof.
  unfold date_not_after, Datetime.lex.
  destruct (Z.compare_spec (Datetime.year a) (Datetime.year b));
    destruct (Z.compare_spec (Datetime.month a) (Datetime.month b));
    destruct (Z.compare_spec (Datetime.day a) (Datetime.day b)); try done;
    destruct (Z.compare_spec (Datetime.year b) (Datetime.year c));
    destruct (Z.compare_spec (Datetime.month b) (Datetime.month c));
    destruct (Z.compare_spec (Datetime.day b) (Datetime.day c)); try done;
    intros _ _;
    destruct (Z.compare_spec (Datetime.year a) (Datetime.year c));
    destruct (Z.compare_spec (Datetime.month a) (Datetime.month c));
    destruct (Z.compare_spec (Datetime.day a) (Datetime.day c));
    try done; exfalso; lia.
Qed.

(** Between a start bound whose date is after that of the end bound there
    is no timestamp. *)
Lemma reversed_range_is_empty (s e ts : datetime) :
  Datetime.tzinfo s = Datetime.tzinfo ts ->
  Datetime.tzinfo e = Datetime.tzinfo ts ->
  date_not_after s e = false ->
  in_range s (VDatetime ts) e = Ok false.
Proof.
  intros Hs He Hrev. rewrite in_range_same_tzinfo by done. f_equal.
  destruct (Datetime.base_compare s ts) eqn:H1;
    destruct (Datetime.base_compare ts e) eqn:H2; try done; exfalso;
    (assert (date_not_after s e = true) as Hord;
     [apply (date_not_after_trans s ts e); apply base_compare_dates; congruence
     |congruence]).
Qed.

Lemma append_body_nothing_selected (title : list string) (data : list row)
    (s e : datetime) :
  Forall (fun entry => selects s e entry = Ok false) data ->
  append_body title data s e = Ok (title ++ zero_body).
Proof.
  intros Hnone. unfold append_body, calculate_total_consumption,
    calculate_total_production, calculate_average_temperature.
  rewrite !sum_column_skip by done. rewrite temperature_loop_skip by done.
  simpl. unfold zero_body. by rewrite <- !app_assoc.
Qed.

Lemma monthly_range_ordered tz month s e :
  monthly_range tz month = Ok (s, e) -> Datetime.le s e = Ok true.
Proof.
  unfold monthly_range, Datetime.new.
  destruct (Datetime.valid_date 2025 month 1 && _); simpl; [|done].
  destruct (Datetime.valid_date 2025 month (Datetime.monthrange_days 2025 month)
            && _) eqn:Hv; simpl; [|done].
  intros [= <- <-]. rewrite le_same_tzinfo by done.
  unfold Datetime.base_compare.
  cbn [Datetime.year Datetime.month Datetime.day Datetime.hour
       Datetime.replace_tzinfo].
  rewrite !Z.compare_refl.
  apply andb_prop in Hv as [Hv _]. unfold Datetime.valid_date in Hv.
  repeat (apply andb_prop in Hv as [Hv ?]).
  destruct (Z.compare_spec 1 (Datetime.monthrange_days 2025 month)); simpl;
    [done|done|lia].
Qed.

Lemma yearly_range_ordered tz s e :
  yearly_range tz = Ok (s, e) -> Datetime.le s e = Ok true.
Proof.
  unfold yearly_range. simpl. intros [= <- <-]. by rewrite le_same_tzinfo.
Qed.

(** C9 (as the code behaves): the monthly and the yearly range always have
    their start bound not after their end bound. The two daily prompts
    accept any two existing dates, in any order, and never compare them:
    the start bound is not after the end bound exactly when the start date
    is not after the end date. With a later start date the range is empty:
    the range test is false for every timestamp that carries the tzinfo of
    the dataset, and over rows that start with such a timestamp the report
    shows zeros. *)
Theorem daily_range_ordered_iff_dates_ordered (tz : option Z) (fuel1 fuel2 : nat)
    (w w1 w2 : world) (str1 str2 : string) (start_date end_date : datetime) :
  prompt_start_date fuel1 tz w = Some (Ok (str1, start_date), w1) ->
  prompt_end_date fuel2 tz w1 = Some (Ok (str2, end_date), w2) ->
  Datetime.le start_date end_date = Ok (date_not_after start_date end_date)
  /\ (date_not_after start_date end_date = false ->
      (forall ts, Datetime.tzinfo ts = tz ->
         in_range start_date (VDatetime ts) end_date = Ok false)
      /\ (forall title data, Forall (stamped tz) data ->
            append_body title data start_date end_date = Ok (title ++ zero_body)))
  /\ (forall line1 line2 rest out files cw d1 d2,
        Datetime.strptime_dmY (Str.strip line1) = Ok d1 ->
        Datetime.strptime_dmY (Str.strip line2) = Ok d2 ->
        exists w1' w2',
          prompt_start_date 1 tz (World (line1 :: line2 :: rest) out files cw)
          = Some (Ok (Str.strip line1, Datetime.replace_tzinfo tz d1), w1')
          /\ prompt_end_date 1 tz w1'
             = Some (Ok (Str.strip line2, Datetime.replace_end_of_day tz d2), w2')
          /\ stdin w2' = rest)
  /\ (forall month s e,
        monthly_range tz month = Ok (s, e) -> Datetime.le s e = Ok true)
  /\ (forall s e, yearly_range tz = Ok (s, e) -> Datetime.le s e = Ok true).
Proof.
  intros Hs He. split_and!;
    [| | |apply monthly_range_ordered|apply yearly_range_ordered].
  - apply prompt_start_date_accepted in Hs as (d1 & Hd1 & ->).
    apply prompt_end_date_accepted in He as (d2 & Hd2 & ->).
    apply strptime_midnight in Hd1 as (Hh & Hm & Hsec & Hus).
    rewrite le_same_tzinfo by done.
    unfold Datetime.base_compare, date_not_after. simpl. rewrite Hh. simpl.
    destruct (Datetime.year d1 ?= Datetime.year d2); simpl; try done.
    destruct (Datetime.month d1 ?= Datetime.month d2); simpl; try done.
    by destruct (Datetime.day d1 ?= Datetime.day d2).
  - intros Hrev.
    apply prompt_start_date_accepted in Hs as (d1 & Hd1 & ->).
    apply prompt_end_date_accepted in He as (d2 & Hd2 & ->).
    assert (Hempty : forall ts, Datetime.tzinfo ts = tz ->
              in_range (Datetime.replace_tzinfo tz d1) (VDatetime ts)
                (Datetime.replace_end_of_day tz d2) = Ok false).
    { intros ts Hts. by apply reversed_range_is_empty. }
    split; [done|]. intros title data Hdata.
    apply append_body_nothing_selected.
    eapply Forall_impl; [exact Hdata|].
    intros entry (ts & rest & -> & Hts). unfold selects. simpl. by apply Hempty.
  - intros line1 line2 rest out files cw d1 d2 Hd1 Hd2.
    eexists (World _ _ _ _), (World _ _ _ _). simpl.
    unfold mbind, prog_bind, print, write_stdout, input. simpl.
    rewrite Hd1. split; [reflexivity|]. simpl. rewrite Hd2. split; reflexivity.
Qed.

Lemma daily_range_ordered_iff_dates_ordered_witness :
  let w := World ["02.01.2025"; "01.01.2025"] [] ∅ true in
  let start_date := Datetime.mk 2025 1 2 0 0 0 0 None in
  let end_date := Datetime.mk 2025 1 1 23 59 59 999999 None in
  Datetime.le start_date end_date = Ok (date_not_after start_date end_date)
  /\ date_not_after start_date end_date = false
  /\ append_body ["Daily Report for 02.01.2025 to 01.01.2025"] scenario_rows
       start_date end_date
     = Ok (["Daily Report for 02.01.2025 to 01.01.2025"] ++ zero_body).
Proof.
  intros w start_date end_date.
  destruct (daily_range_ordered_iff_dates_ordered None 3 2 w
              (World ["01.01.2025"] ["Please enter the start date (dd.mm.yyyy):" +:+ Str.nl]
                 ∅ true)
              (World [] ["Please enter the start date (dd.mm.yyyy):" +:+ Str.nl;
                         "Please enter the end date (dd.mm.yyyy):" +:+ Str.nl]
                 ∅ true)
              "02.01.2025" "01.01.2025" start_date end_date)
    as (Hle & Hrev & _).
  - vm_compute. reflexivity.
  - vm_compute. reflexivity.
  - split; [exact Hle|]. split; [reflexivity|].
    apply (proj2 (Hrev eq_refl)).
    repeat constructor; eexists _, _; split; reflexivity.
Defined.

(** The claim fails when the dates are typed in reverse order: both are
    accepted, the start bound lies after the end bound, and the report
    over the scenario readings selects nothing. *)
Lemma reversed_dates_accepted :
  let w := World ["02.01.2025"; "01.01.2025"] [] ∅ true in
  let start_date := Datetime.mk 2025 1 2 0 0 0 0 None in
  let end_date := Datetime.mk 2025 1 1 23 59 59 999999 None in
  (exists w1 w2,
      prompt_start_date 3 None w = Some (Ok ("02.01.2025", start_date), w1)
      /\ prompt_end_date 2 None w1 = Some (Ok ("01.01.2025", end_date), w2))
  /\ Datetime.le start_date end_date = Ok false
  /\ fst <$> create_daily_report scenario_rows w
     = Some (Ok [ "Daily Report for 02.01.2025 to 01.01.2025";
                  "Total Consumption: 0,00 kWh";
                  "Total Production: 0,00 kWh";
                  "Average Temperature: 0,00 °C" ]).
Proof.
  intros w start_date end_date. split_and!.
  - exists (World ["01.01.2025"]
              ["Please enter the start date (dd.mm.yyyy):" +:+ Str.nl] ∅ true),
      (World []
         ["Please enter the start date (dd.mm.yyyy):" +:+ Str.nl;
          "Please enter the end date (dd.mm.yyyy):" +:+ Str.nl] ∅ true).
    split; vm_compute; reflexivity.
  - reflexivity.
  - vm_compute. reflexivity.
Qed.

(** ** Failure of a report write *)

Lemma open_write_unwritable name w :
  unwritable name w -> exists e, open_write name w = Some (Raise e, w).
Proof.
  unfold unwritable, open_write.
  destruct (fs w !! name) as [[r wr c|]|]; intros H; try rewrite H; eauto.
Qed.

Lemma write_report_unwritable lines w :
  unwritable "report.txt" w ->
  exists e, write_report_to_file lines w
            = Some (Raise e, printed "Writing report to file 'report.txt'..." w).
Proof.
  intros H. unfold write_report_to_file, write_lines, mbind, prog_bind.
  destruct (open_write_unwritable "report.txt"
              (printed "Writing report to file 'report.txt'..." w)) as [e He];
    [done|].
  exists e. unfold print, write_stdout. fold (printed "Writing report to file 'report.txt'..." w).
  by rewrite He.
Qed.

(** An uncaught error of the write leaves [show_report_menu] as an
    exception: the confirmation is not printed and the menu is not shown
    again. *)
Lemma report_menu_write_error lines w line rest :
  stdin w = line :: rest ->
  Str.strip line = "1" ->
  unwritable "report.txt" w ->
  exists e,
    show_report_menu lines w
    = Some (Raise e,
            World rest
              (stdout w ++ ["Report Output Menu:" +:+ Str.nl;
                            "1. Write report to 'report.txt'" +:+ Str.nl;
                            "2. Create a new report" +:+ Str.nl;
                            "3. Exit" +:+ Str.nl;
                            "Please select an option (1-3): ";
                            "Writing report to file 'report.txt'..." +:+ Str.nl])
              (fs w) (cwd_writable w)).
Proof.
  intros Hin Hsel Hun. destruct w as [inp o files cw]. simpl in Hin. subst inp.
  destruct (write_report_unwritable lines
              (World rest
                 (((((o ++ ["Report Output Menu:" +:+ Str.nl])
                     ++ ["1. Write report to 'report.txt'" +:+ Str.nl])
                    ++ ["2. Create a new report" +:+ Str.nl])
                   ++ ["3. Exit" +:+ Str.nl])
                  ++ ["Please select an option (1-3): "]) files cw) Hun)
    as [e He].
  exists e.
  unfold show_report_menu, mbind, prog_bind, print, write_stdout, bounded_by_input.
  cbn -[write_report_to_file create_report_file].
  unfold mbind, prog_bind, input. cbn -[write_report_to_file create_report_file].
  rewrite Hsel. cbn -[write_report_to_file create_report_file].
  rewrite He. unfold printed. simpl.
  by rewrite <- !app_assoc.
Qed.

(** C4: the report file cannot be written. With the scenario data loaded,
    the user asks for the yearly report and for it to be written to
    [report.txt], which is read-only: [main] ends with the uncaught
    [PermissionError]. The last thing printed is the announcement of the
    write; the two lines typed after it are never read, so the report
    output menu is not offered again; the files are as before. *)
Theorem write_error_ends_session :
  exists out,
    main (lib := Reference.lib) read_only_report_world
    = Some (Raise (PermissionError "[Errno 13] Permission denied: 'report.txt'"),
            World ["1"; "4"] out (fs read_only_report_world) true)
    /\ last out = Some ("Writing report to file 'report.txt'..." +:+ Str.nl).
Proof.
  destruct (main (lib := Reference.lib) read_only_report_world)
    as [[r [inp out files cw]]|] eqn:H; vm_compute in H; [|done].
  injection H as <- <- <- <- <-.
  eexists. split; [vm_compute; reflexivity|reflexivity].
Qed.

(** ** New report files *)

Lemma string_app_inj_l (s1 s2 t : string) : s1 +:+ t = s2 +:+ t -> s1 = s2.
Proof.
  assert (Hlen : forall a b, String.length (a +:+ b)
                             = (String.length a + String.length b)%nat).
  { intros a b. induction a as [|c a IH]; simpl; [done|]. by rewrite IH. }
  revert s2. induction s1 as [|c s1 IH]; intros [|c' s2] H; simpl in *.
  - done.
  - apply (f_equal String.length) in H. rewrite !Hlen in H. simpl in H.
    exfalso. lia.
  - apply (f_equal String.length) in H. rewrite !Hlen in H. simpl in H.
    exfalso. lia.
  - injection H as -> H. f_equal. by apply IH.
Qed.

Lemma report_filename_inj (a b : Z) : report_filename a = report_filename b -> a = b.
Proof.
  unfold report_filename. intros H.
  apply (inj (String.app "report_")) in H.
  apply string_app_inj_l in H. by apply (inj pretty).
Qed.

(** A directory in which [report_1.txt] to [report_<n>.txt] all exist has
    at least [n] entries. *)
Lemma taken_names_bound (files : gmap string node) (n : Z) :
  (forall k, 1 <= k <= n -> is_Some (files !! report_filename k)) ->
  (Z.to_nat n <= size files)%nat.
Proof.
  intros Htaken.
  set (names := list_to_set (report_filename <$> seqZ 1 n) : gset string).
  assert (Hsize : size names = Z.to_nat n).
  { unfold names. rewrite size_list_to_set, length_fmap, length_seqZ; [done|].
    apply NoDup_fmap_2_strong; [|apply NoDup_seqZ].
    intros a b _ _. apply report_filename_inj. }
  rewrite <- Hsize, <- (size_dom (D := gset string)).
  apply subseteq_size. intros name.
  unfold names. rewrite elem_of_list_to_set, list_elem_of_fmap.
  intros (k & -> & Hk%elem_of_seqZ). apply elem_of_dom, Htaken. lia.
Qed.

Lemma write_each_appends name lines w r wr text :
  fs w !! name = Some (RegularFile r wr text) ->
  write_each name lines w
  = Some (Ok (),
          set_fs (<[name := RegularFile r wr
                      (foldl (fun t line => t +:+ (line +:+ Str.nl)) text lines)]>
                    (fs w)) w).
Proof.
  revert w text. induction lines as [|line rest IH]; intros w text Hf; simpl.
  - unfold mret, prog_ret, set_fs. rewrite insert_id by done. by destruct w.
  - unfold mbind, prog_bind, file_write. rewrite Hf.
    rewrite (IH _ (text +:+ (line +:+ Str.nl))); unfold set_fs; simpl.
    + by rewrite insert_insert_eq.
    + by rewrite lookup_insert_eq.
Qed.

Lemma write_lines_new name lines w :
  fs w !! name = None ->
  write_lines name lines w
  = if cwd_writable w
    then Some (Ok (), set_fs (<[name := report_file lines]> (fs w)) w)
    else Some (Raise (PermissionError
                 ("[Errno 13] Permission denied: " +:+ Str.repr name)), w).
Proof.
  intros Hf. unfold write_lines, mbind, prog_bind, open_write. rewrite Hf.
  destruct (cwd_writable w) eqn:Hcw; [|done].
  rewrite (write_each_appends _ _ _ true true "") by (simpl; apply lookup_insert_eq).
  unfold set_fs; simpl. by rewrite insert_insert_eq, Hcw.
Qed.

(** The search ends at the first free name, given rounds for one more name
    than the directory has entries. *)
Lemma create_report_file_from_spec fuel lines counter w :
  1 <= counter ->
  (forall k, 1 <= k < counter -> is_Some (fs w !! report_filename k)) ->
  (size (fs w) < Z.to_nat (counter - 1) + fuel)%nat ->
  exists n,
    counter <= n /\ first_free (fs w) n
    /\ create_report_file_from fuel lines counter w
       = (write_lines (report_filename n) lines;;
          print ("Report created: " +:+ report_filename n)) w.
Proof.
  revert counter. induction fuel as [|fuel IH]; intros counter Hc Htaken Hfuel.
  - assert (Hb : (Z.to_nat (counter - 1) <= size (fs w))%nat).
    { apply taken_names_bound. intros k Hk. apply Htaken. lia. }
    lia.
  - simpl. unfold mbind at 1, prog_bind at 1, os_path_exists.
    destruct (fs w !! report_filename counter) as [nd|] eqn:Hf.
    + rewrite bool_decide_eq_true_2 by eauto. simpl.
      destruct (IH (counter + 1)) as (n & Hn & Hfree & Hrun).
      * lia.
      * intros k Hk. destruct (decide (k = counter)) as [->|]; [eauto|].
        apply Htaken. lia.
      * replace (counter + 1 - 1) with (Z.succ (counter - 1)) by lia.
        rewrite Z2Nat.inj_succ by lia. lia.
      * exists n. split_and!; [lia|done..].
    + rewrite bool_decide_eq_false_2 by (intros []; done). simpl.
      exists counter. split_and!; [lia| |done]. by split_and!.
Qed.

Lemma create_report_file_spec lines w :
  exists n,
    first_free (fs w) n
    /\ create_report_file lines w
       = (write_lines (report_filename n) lines;;
          print ("Report created: " +:+ report_filename n)) w.
Proof.
  destruct (create_report_file_from_spec (S (size (fs w))) lines 1 w)
    as (n & _ & Hfree & Hrun); [lia|intros; lia|simpl; lia|eauto].
Qed.

Lemma first_free_unique files n m : first_free files n -> first_free files m -> n = m.
Proof.
  intros (Hn & Hfn & Hbn) (Hm & Hfm & Hbm).
  destruct (Z.lt_trichotomy n m) as [?|[?|?]]; [|done|].
  - destruct (Hbm n) as [? ?]; [lia|congruence].
  - destruct (Hbn m) as [? ?]; [lia|congruence].
Qed.

Lemma create_report_file_writable lines w :
  cwd_writable w = true ->
  exists n,
    first_free (fs w) n
    /\ create_report_file lines w
       = Some (Ok (),
               printed ("Report created: " +:+ report_filename n)
                 (set_fs (<[report_filename n := report_file lines]> (fs w)) w)).
Proof.
  intros Hcw. destruct (create_report_file_spec lines w) as (n & Hfree & Hrun).
  exists n. split; [done|]. rewrite Hrun.
  unfold mbind, prog_bind. destruct Hfree as (_ & Hnone & _).
  by rewrite (write_lines_new _ _ _ Hnone), Hcw.
Qed.

(** Whatever the outcome, the entries that existed are as they were. *)
Lemma create_report_file_preserves lines w r w' :
  create_report_file lines w = Some (r, w') ->
  forall name nd, fs w !! name = Some nd -> fs w' !! name = Some nd.
Proof.
  destruct (create_report_file_spec lines w) as (n & (_ & Hnone & _) & ->).
  unfold mbind, prog_bind. rewrite (write_lines_new _ _ _ Hnone).
  destruct (cwd_writable w); intros [= <- <-]; [|done].
  intros name nd Hname. simpl. rewrite lookup_insert_ne; [done|congruence].
Qed.

(** C6: [create_report_file] writes to [report_<n>.txt] for the smallest
    [n >= 1] for which no entry of that name exists; no entry that existed
    is changed; and two calls in a row write two different files, which are
    [report_1.txt] and [report_2.txt] when neither existed. *)
Theorem new_report_file_never_overwrites (lines1 lines2 : list string) (w : world) :
  (forall r w',
      create_report_file lines1 w = Some (r, w') ->
      forall name nd, fs w !! name = Some nd -> fs w' !! name = Some nd)
  /\ (cwd_writable w = true ->
      exists n1 n2 w1 w2,
        first_free (fs w) n1
        /\ create_report_file lines1 w = Some (Ok (), w1)
        /\ fs w1 = <[report_filename n1 := report_file lines1]> (fs w)
        /\ first_free (fs w1) n2
        /\ create_report_file lines2 w1 = Some (Ok (), w2)
        /\ fs w2 = <[report_filename n2 := report_file lines2]> (fs w1)
        /\ n1 < n2
        /\ fs w2 !! report_filename n1 = Some (report_file lines1)
        /\ fs w2 !! report_filename n2 = Some (report_file lines2)
        /\ (forall name nd, fs w !! name = Some nd -> fs w2 !! name = Some nd)
        /\ (fs w !! "report_1.txt" = None -> fs w !! "report_2.txt" = None ->
            n1 = 1 /\ n2 = 2)).
Proof.
  split; [apply create_report_file_preserves|].
  intros Hcw.
  destruct (create_report_file_writable lines1 w Hcw) as (n1 & Hfree1 & Hrun1).
  set (w1 := printed ("Report created: " +:+ report_filename n1)
               (set_fs (<[report_filename n1 := report_file lines1]> (fs w)) w))
    in *.
  destruct (create_report_file_writable lines2 w1 Hcw) as (n2 & Hfree2 & Hrun2).
  assert (Hlt : n1 < n2).
  { destruct Hfree1 as (H1 & _ & Hb1), Hfree2 as (H2 & Hnone2 & _).
    destruct (Z.lt_ge_cases n1 n2) as [|Hge]; [done|]. exfalso.
    simpl in Hnone2. destruct (decide (n2 = n1)) as [->|Hne].
    - by rewrite lookup_insert_eq in Hnone2.
    - rewrite lookup_insert_ne in Hnone2 by (intros ?%report_filename_inj; done).
      destruct (Hb1 n2) as [? ?]; [lia|congruence]. }
  eexists n1, n2, w1, _. split_and!; [done|done|done|done|exact Hrun2|done|done|..].
  - simpl. rewrite lookup_insert_ne by (intros ?%report_filename_inj; lia).
    apply lookup_insert_eq.
  - simpl. apply lookup_insert_eq.
  - intros name nd Hname.
    eapply (create_report_file_preserves lines2 w1); [exact Hrun2|].
    by eapply (create_report_file_preserves lines1 w).
  - intros Hno1 Hno2.
    assert (n1 = 1) as ->.
    { apply (first_free_unique (fs w)); [done|]. split_and!; [lia|done|intros; lia]. }
    split; [done|].
    apply (first_free_unique (fs w1)); [done|]. split_and!; [lia| |].
    + simpl. rewrite lookup_insert_ne by done. done.
    + intros k Hk. assert (k = 1) as -> by lia. simpl.
      rewrite lookup_insert_eq. eauto.
Qed.

Lemma new_report_file_never_overwrites_witness :
  let w := World [] [] {[ "report.txt" := RegularFile true true "old" ]} true in
  exists n1 n2 w1 w2,
    first_free (fs w) n1
    /\ create_report_file ["a"] w = Some (Ok (), w1)
    /\ fs w1 = <[report_filename n1 := report_file ["a"]]> (fs w)
    /\ first_free (fs w1) n2
    /\ create_report_file ["b"] w1 = Some (Ok (), w2)
    /\ fs w2 = <[report_filename n2 := report_file ["b"]]> (fs w1)
    /\ n1 < n2
    /\ fs w2 !! report_filename n1 = Some (report_file ["a"])
    /\ fs w2 !! report_filename n2 = Some (report_file ["b"])
    /\ (forall name nd, fs w !! name = Some nd -> fs w2 !! name = Some nd)
    /\ (fs w !! "report_1.txt" = None -> fs w !! "report_2.txt" = None ->
        n1 = 1 /\ n2 = 2).
Proof.
  intros w.
  apply (proj2 (new_report_file_never_overwrites ["a"] ["b"] w)).
  reflexivity.
Defined.

(** Two reports written one after the other into a directory without
    report files. *)
Example two_new_reports :
  let w := World [] [] {[ "report.txt" := RegularFile true true "old" ]} true in
  (create_report_file ["first"];; create_report_file ["second"]) w
  = Some (Ok (),
          World []
            ["Report created: report_1.txt" +:+ Str.nl;
             "Report created: report_2.txt" +:+ Str.nl]
            {[ "report.txt" := RegularFile true true "old";
               "report_1.txt" := RegularFile true true ("first" +:+ Str.nl);
               "report_2.txt" := RegularFile true true ("second" +:+ Str.nl) ]}
            true).
Proof. vm_compute. reflexivity. Qed.

(** ** Totals over a range and over its parts *)

Lemma rounding_rows_loaded :
  read_rows (lib := Reference.lib) rounding_lines [] = Ok rounding_rows.
Proof. vm_compute. reflexivity. Qed.



Section ExactSums.

Context {A : Type} (add : A -> A -> A) (zero : A).
Context (add_assoc : forall x y z, add x (add y z) = add (add x y) z).
Context (add_comm : forall x y, add x y = add y x).
Context (add_zero_l : forall x, add zero x = x).




End ExactSums.





(** ** More on loading *)

Section LoaderExtras.

Context `{lib : PyLib}.

(** X1: a data file that does not exist gives the empty dataset and the
    message naming the file; nothing else changes. *)
Theorem missing_file_gives_empty_dataset (file : string) (w : world) :
  fs w !! file = None ->
  fetch_electricity_data file w
  = Some (Ok [], printed ("Error: File '" +:+ file +:+ "' not found.") w).
Proof.
  intros Hf.
  unfold fetch_electricity_data, try_except, open_read, mbind, prog_bind.
  simpl. by rewrite Hf.
Qed.

(** X2: a data file that may not be read gives the empty dataset and the
    permission message; a directory of that name gives the empty dataset
    and the unexpected-error message. *)
Theorem unreadable_file_gives_empty_dataset (file : string) (w : world) (nd : node) :
  fs w !! file = Some nd ->
  match nd with RegularFile r _ _ => r = false | Directory => True end ->
  fetch_electricity_data file w
  = Some (Ok [],
          printed
            match nd with
            | RegularFile _ _ _ =>
                "Error: Permission denied when trying to read '" +:+ file +:+ "'."
            | Directory =>
                "An unexpected error occurred: [Errno 21] Is a directory: "
                  +:+ Str.repr file
            end w).
Proof.
  intros Hf Hnd.
  unfold fetch_electricity_data, try_except, open_read, mbind, prog_bind.
  simpl. rewrite Hf. destruct nd as [r wr c|]; [|done]. by rewrite Hnd.
Qed.

(** A line that is passed over has no effect on the loop, wherever it
    stands. *)
Lemma read_rows_passed_over (before after : list string) (line : string)
    (acc : list row) :
  passed_over line ->
  read_rows (before ++ line :: after) acc = read_rows (before ++ after) acc.
Proof.
  intros (f0 & msg & Hf0 & Hraise). revert acc.
  induction before as [|l before IH]; intros acc; simpl.
  - by rewrite (getitem_lookup _ _ _ Hf0); simpl; rewrite Hraise.
  - destruct (getitem (Str.split ";" l) 0) as [g0|e0]; simpl.
    + destruct (fromisoformat g0) as [t0|[]]; simpl; try done.
      destruct (convert_electricity_data (Str.split ";" l)); simpl; done.
    + by destruct e0.
Qed.

(** X3: removing a header-like line from a readable file, wherever it
    stands, does not change what is loaded. *)
Theorem passed_over_line_has_no_effect (before after : list string) (line : string) :
  passed_over line ->
  read_rows (before ++ line :: after) [] = read_rows (before ++ after) [].
Proof. apply read_rows_passed_over. Qed.

(** The loop, when it succeeds, appends the rows of exactly the lines
    whose first field parses, in order. *)
Lemma read_rows_in_order (lines : list string) (acc rows : list row) :
  read_rows lines acc = Ok rows ->
  exists rows',
    rows = acc ++ rows'
    /\ Forall2 row_of_line (List.filter is_data_line lines) rows'.
Proof.
  revert acc. induction lines as [|l rest IH]; intros acc; simpl.
  - intros [= <-]. exists []. split; [by rewrite app_nil_r|constructor].
  - unfold is_data_line.
    destruct (getitem (Str.split ";" l) 0) as [g0|e0]; simpl.
    + destruct (fromisoformat g0) as [t0|e0]; simpl.
      * destruct (convert_electricity_data (Str.split ";" l)) as [r|] eqn:Hc;
          simpl; [|done].
        intros (rows' & -> & Hrows)%IH. exists (r :: rows').
        split; [by rewrite <- app_assoc|]. by constructor.
      * destruct e0; try done. apply IH.
    + destruct e0; try done. apply IH.
Qed.

(** X4: a dataset that loads from a file whose bytes are UTF-8 holds one
    row for every line whose first field parses, in the order of the file,
    each row being the conversion of its line; the other lines leave no
    trace. *)
Theorem loaded_rows_follow_file_order (file : string) (w : world) (wr : bool)
    (content : string) (rows : list row) :
  fs w !! file = Some (RegularFile true wr content) ->
  utf8_decode_error content = None ->
  read_rows (Str.text_lines content) [] = Ok rows ->
  fetch_electricity_data file w = Some (Ok rows, w)
  /\ Forall2 row_of_line (List.filter is_data_line (Str.text_lines content)) rows.
Proof.
  intros Hf Hutf Hr. split; [by rewrite (fetch_readable _ _ _ _ Hf Hutf), Hr|].
  by destruct (read_rows_in_order _ _ _ Hr) as (rows' & -> & Hrows).
Qed.

(** X5: a line whose first field parses but which has fewer than four
    fields aborts the load: the dataset is empty and the message reports
    an index out of range, unless a numeric field before the missing one
    is itself malformed. *)
Theorem short_line_aborts_load (file : string) (w : world) (wr : bool)
    (content line : string) :
  fs w !! file = Some (RegularFile true wr content) ->
  line ∈ Str.text_lines content ->
  timestamp_parses (Str.split ";" line) ->
  (length (Str.split ";" line) < 4)%nat ->
  (exists e, convert_electricity_data (Str.split ";" line) = Raise e)
  /\ exists e,
      fetch_electricity_data file w
      = Some (Ok [], printed (load_error_message file e) w).
Proof.
  intros Hf Hin Hts Hlen.
  assert (Hc : exists e, convert_electricity_data (Str.split ";" line) = Raise e).
  { destruct Hts as (f0 & t & Hf0 & Ht). unfold convert_electricity_data.
    destruct (Str.split ";" line) as [|g0 [|g1 [|g2 [|g3 extra]]]];
      simpl in *; simplify_eq; try lia; rewrite Ht; simpl;
      repeat match goal with
        | |- context [py_float ?x] => destruct (py_float x); simpl
        end; eauto. }
  split; [done|].
  destruct (utf8_decode_error content) as [[n msg]|] eqn:Hutf.
  { eexists. by apply (fetch_undecoded _ _ _ _ _ _ Hf Hutf). }
  destruct (read_rows_aborts (Str.text_lines content) [] line Hin Hts Hc) as [e He].
  exists e. by rewrite (fetch_readable _ _ _ _ Hf Hutf), He.
Qed.

End LoaderExtras.

Lemma missing_file_gives_empty_dataset_witness :
  fetch_electricity_data (lib := Reference.lib) "2025.csv" (World ["1"] [] ∅ true)
  = Some (Ok [], printed "Error: File '2025.csv' not found." (World ["1"] [] ∅ true)).
Proof.
  apply (missing_file_gives_empty_dataset (lib := Reference.lib)). reflexivity.
Defined.

Lemma unreadable_file_gives_empty_dataset_witness :
  let w := World [] [] {[ "2025.csv" := RegularFile false true "x" ]} true in
  fetch_electricity_data (lib := Reference.lib) "2025.csv" w
  = Some (Ok [],
          printed "Error: Permission denied when trying to read '2025.csv'." w).
Proof.
  intros w.
  apply (unreadable_file_gives_empty_dataset (lib := Reference.lib) "2025.csv" w
           (RegularFile false true "x")); reflexivity.
Defined.

Lemma passed_over_line_has_no_effect_witness :
  read_rows (lib := Reference.lib)
    (["2025-01-01T00:00;1,0;0,5;2,0" +:+ Str.nl]
       ++ ("Time;Consumption;Production;Temperature" +:+ Str.nl) :: []) []
  = read_rows (lib := Reference.lib)
      (["2025-01-01T00:00;1,0;0,5;2,0" +:+ Str.nl] ++ []) [].
Proof.
  apply (passed_over_line_has_no_effect (lib := Reference.lib)).
  exists "Time", "Invalid isoformat string: 'Time'". split; vm_compute; reflexivity.
Defined.

Lemma loaded_rows_follow_file_order_witness :
  fetch_electricity_data (lib := Reference.lib) "2025.csv"
    (world_with_data scenario_content)
  = Some (Ok scenario_rows, world_with_data scenario_content)
  /\ Forall2 (row_of_line (lib := Reference.lib))
       (List.filter (is_data_line (lib := Reference.lib))
          (Str.text_lines scenario_content))
       scenario_rows.
Proof.
  apply (loaded_rows_follow_file_order (lib := Reference.lib) "2025.csv"
           (world_with_data scenario_content) true scenario_content scenario_rows).
  - vm_compute. reflexivity.
  - vm_compute. reflexivity.
  - vm_compute. reflexivity.
Defined.

Lemma short_line_aborts_load_witness :
  let content := "2025-01-01T00:00;1,0;0,5" +:+ Str.nl in
  (exists e, convert_electricity_data (lib := Reference.lib)
               (Str.split ";" ("2025-01-01T00:00;1,0;0,5" +:+ Str.nl)) = Raise e)
  /\ exists e,
      fetch_electricity_data (lib := Reference.lib) "2025.csv" (world_with_data content)
      = Some (Ok [], printed (load_error_message "2025.csv" e) (world_with_data content)).
Proof.
  intros content.
  apply (short_line_aborts_load (lib := Reference.lib) "2025.csv"
           (world_with_data content) true content
           ("2025-01-01T00:00;1,0;0,5" +:+ Str.nl)).
  - vm_compute. reflexivity.
  - vm_compute. left.
  - exists "2025-01-01T00:00", (Datetime.mk 2025 1 1 0 0 0 0 None).
    split; vm_compute; reflexivity.
  - vm_compute. lia.
Defined.

(** ** The average and the readings a range selects *)

Lemma temperature_loop_selected data s e total count :
  Forall well_shaped data ->
  Forall (fun entry => exists b, selects s e entry = Ok b) data ->
  temperature_loop data s e total count
  = Ok (foldl Float.add total (float_at 3 <$> selected s e data),
        count + Z.of_nat (length (selected s e data))).
Proof.
  intros Hshape Hsel. revert total count.
  induction data as [|entry rest IH]; intros total count.
  { simpl. by rewrite Z.add_0_r. }
  apply Forall_cons in Hshape as [(t & c & p & temp & ->) Hshape].
  apply Forall_cons in Hsel as [[b Hb] Hsel].
  simpl. unfold is_selected. rewrite Hb.
  unfold selects in Hb. simpl in Hb. rewrite Hb. simpl.
  destruct b; [|by apply IH].
  rewrite IH by done. simpl length. do 2 f_equal. lia.
Qed.

(** X6: on rows of four typed fields for which the range test evaluates,
    the average temperature is [0.0] when no row is selected, and otherwise
    the left-to-right sum of the selected temperatures divided by the
    number of selected rows converted to a float. *)
Theorem average_is_sum_over_count (data : list row) (start_date end_date : datetime) :
  Forall well_shaped data ->
  Forall (fun entry => exists b, selects start_date end_date entry = Ok b) data ->
  calculate_average_temperature data start_date end_date
  = match selected start_date end_date data with
    | [] => Ok Float.zero
    | chosen =>
        count ← Float.of_int (Z.of_nat (length chosen));
        Float.truediv (float_sum (float_at 3 <$> chosen)) count
    end.
Proof.
  intros Hshape Hsel. unfold calculate_average_temperature.
  rewrite temperature_loop_selected by done. simpl.
  destruct (selected start_date end_date data) as [|entry chosen]; [done|].
  unfold float_sum.
  destruct (Z.ltb_spec 0 (Z.of_nat (length (entry :: chosen)))) as [|Hle];
    [done|]. simpl length in Hle. lia.
Qed.

Lemma average_is_sum_over_count_witness :
  calculate_average_temperature scenario_rows jan_1_start jan_1_end
  = match selected jan_1_start jan_1_end scenario_rows with
    | [] => Ok Float.zero
    | chosen =>
        count ← Float.of_int (Z.of_nat (length chosen));
        Float.truediv (float_sum (float_at 3 <$> chosen)) count
    end.
Proof.
  apply (average_is_sum_over_count scenario_rows jan_1_start jan_1_end).
  - repeat constructor; unfold well_shaped, naive, pos_float; eauto.
  - repeat constructor; eexists; reflexivity.
Defined.

(** ** Which timestamps a report range holds *)

Lemma well_formed_bounds (d : datetime) :
  well_formed d ->
  1 <= Datetime.month d <= 12
  /\ 1 <= Datetime.day d <= Datetime.monthrange_days (Datetime.year d) (Datetime.month d)
  /\ 0 <= Datetime.hour d <= 23
  /\ 0 <= Datetime.minute d <= 59
  /\ 0 <= Datetime.second d <= 59
  /\ 0 <= Datetime.microsecond d <= 999999.
Proof.
  intros [Hd Ht]. unfold Datetime.valid_date in Hd. unfold Datetime.valid_time in Ht.
  repeat (apply andb_prop in Hd as [Hd ?]).
  repeat (apply andb_prop in Ht as [Ht ?]).
  lia.
Qed.

Lemma monthrange_days_le_31 (y m : Z) : Datetime.monthrange_days y m <= 31.
Proof.
  assert (Hnth : forall k, nth k Datetime.mdays 0 <= 31).
  { intros k. do 14 (destruct k as [|k]; simpl; try lia). }
  unfold Datetime.monthrange_days.
  destruct (Z.eqb_spec m 2) as [->|_].
  - simpl. destruct (Datetime.isleap y); lia.
  - cbn [andb]. specialize (Hnth (Z.to_nat m)). lia.
Qed.

Ltac compare_fields :=
  unfold Datetime.base_compare, Datetime.lex;
  cbn [Datetime.year Datetime.month Datetime.day Datetime.hour Datetime.minute
       Datetime.second Datetime.microsecond Datetime.replace_tzinfo
       Datetime.replace_end_of_day];
  repeat (match goal with
          | |- context [?a ?= ?b] => destruct (Z.compare_spec a b)
          end; cbv beta iota);
  try reflexivity; try (exfalso; lia).

(** X7: the yearly report counts a well-formed timestamp with the tzinfo
    of the dataset exactly when its year is 2025. *)
Theorem yearly_range_is_2025 (tz : option Z) (s e ts : datetime) :
  yearly_range tz = Ok (s, e) ->
  Datetime.tzinfo ts = tz ->
  well_formed ts ->
  in_range s (VDatetime ts) e = Ok (Datetime.year ts =? 2025).
Proof.
  unfold yearly_range. simpl. intros [= <- <-] Htz Hwf.
  rewrite in_range_same_tzinfo by done.
  apply well_formed_bounds in Hwf as (Hm & Hd & Hh & Hmi & Hs & Hus).
  pose proof (monthrange_days_le_31 (Datetime.year ts) (Datetime.month ts)).
  f_equal. destruct (Z.eqb_spec (Datetime.year ts) 2025) as [Hy|Hy].
  - compare_fields.
  - compare_fields.
Qed.

(** X8: the monthly report for month [m] counts a well-formed timestamp
    with the tzinfo of the dataset exactly when it lies in month [m] of
    the year 2025. *)
Theorem monthly_range_is_month_of_2025 (tz : option Z) (month : Z) (s e ts : datetime) :
  monthly_range tz month = Ok (s, e) ->
  Datetime.tzinfo ts = tz ->
  well_formed ts ->
  in_range s (VDatetime ts) e
  = Ok ((Datetime.year ts =? 2025) && (Datetime.month ts =? month)).
Proof.
  unfold monthly_range, Datetime.new.
  destruct (Datetime.valid_date 2025 month 1 && _); simpl; [|done].
  destruct (Datetime.valid_date 2025 month _ && _); simpl; [|done].
  intros [= <- <-] Htz Hwf.
  rewrite in_range_same_tzinfo by done.
  apply well_formed_bounds in Hwf as (Hm & Hd & Hh & Hmi & Hs & Hus).
  f_equal.
  destruct (Z.eqb_spec (Datetime.year ts) 2025) as [Hy|Hy];
    destruct (Z.eqb_spec (Datetime.month ts) month) as [Hmo|Hmo];
    try rewrite Hy in Hd; try rewrite Hmo in Hd; compare_fields.
Qed.

Lemma monthly_range_is_month_of_2025_witness :
  in_range (Datetime.mk 2025 2 1 0 0 0 0 None)
    (VDatetime (Datetime.mk 2025 2 28 23 30 0 0 None))
    (Datetime.mk 2025 2 28 23 59 59 999999 None)
  = Ok ((2025 =? 2025) && (2 =? 2)).
Proof.
  apply (monthly_range_is_month_of_2025 None 2 _ _
           (Datetime.mk 2025 2 28 23 30 0 0 None)).
  - reflexivity.
  - reflexivity.
  - split; reflexivity.
Defined.

Lemma yearly_range_is_2025_witness :
  in_range (Datetime.mk 2025 1 1 0 0 0 0 None)
    (VDatetime (Datetime.mk 2024 12 31 23 59 59 999999 None))
    (Datetime.mk 2025 12 31 23 59 59 999999 None)
  = Ok (2024 =? 2025).
Proof.
  apply (yearly_range_is_2025 None _ _ (Datetime.mk 2024 12 31 23 59 59 999999 None)).
  - reflexivity.
  - reflexivity.
  - split; reflexivity.
Defined.

(** X9: the daily report counts a well-formed timestamp with the tzinfo
    of the dataset exactly when its calendar date is not before the start
    date and not after the end date: every reading of the end day is
    included, up to its last microsecond. *)
Theorem daily_range_holds_dates_between (tz : option Z) (fuel1 fuel2 : nat)
    (w w1 w2 : world) (str1 str2 : string) (start_date end_date ts : datetime) :
  prompt_start_date fuel1 tz w = Some (Ok (str1, start_date), w1) ->
  prompt_end_date fuel2 tz w1 = Some (Ok (str2, end_date), w2) ->
  Datetime.tzinfo ts = tz ->
  well_formed ts ->
  in_range start_date (VDatetime ts) end_date
  = Ok (date_not_after start_date ts && date_not_after ts end_date).
Proof.
  intros Hs He Htz Hwf.
  apply prompt_start_date_accepted in Hs as (d1 & Hd1 & ->).
  apply prompt_end_date_accepted in He as (d2 & Hd2 & ->).
  apply strptime_midnight in Hd1 as (Hh1 & Hm1 & Hs1 & Hus1).
  rewrite in_range_same_tzinfo by done.
  apply well_formed_bounds in Hwf as (Hm & Hd & Hh & Hmi & Hs & Hus).
  f_equal. unfold date_not_after.
  unfold Datetime.base_compare, Datetime.lex;
  cbn [Datetime.year Datetime.month Datetime.day Datetime.hour Datetime.minute
       Datetime.second Datetime.microsecond Datetime.replace_tzinfo
       Datetime.replace_end_of_day].
  rewrite Hh1, Hm1, Hs1, Hus1.
  f_equal.
  - repeat (match goal with
            | |- context [?a ?= ?b] => destruct (Z.compare_spec a b)
            end; cbv beta iota); try reflexivity; exfalso; lia.
  - repeat (match goal with
            | |- context [?a ?= ?b] => destruct (Z.compare_spec a b)
            end; cbv beta iota); try reflexivity; exfalso; lia.
Qed.

Lemma daily_range_holds_dates_between_witness :
  let w := World ["01.01.2025"; "01.01.2025"] [] ∅ true in
  let ts := Datetime.mk 2025 1 1 23 59 59 999999 None in
  in_range jan_1_start (VDatetime ts) jan_1_end
  = Ok (date_not_after jan_1_start ts && date_not_after ts jan_1_end).
Proof.
  intros w ts.
  apply (daily_range_holds_dates_between None 3 2 w
           (World ["01.01.2025"] ["Please enter the start date (dd.mm.yyyy):" +:+ Str.nl]
              ∅ true)
           (World [] ["Please enter the start date (dd.mm.yyyy):" +:+ Str.nl;
                      "Please enter the end date (dd.mm.yyyy):" +:+ Str.nl]
              ∅ true)
           "01.01.2025" "01.01.2025" jan_1_start jan_1_end ts).
  - vm_compute. reflexivity.
  - vm_compute. reflexivity.
  - reflexivity.
  - split; reflexivity.
Defined.

(** ** Writing to report.txt and reading a report back *)

Lemma string_app_assoc (a b c : string) : (a +:+ b) +:+ c = a +:+ (b +:+ c).
Proof. induction a as [|x a IH]; [done|]. exact (f_equal (String x) IH). Qed.

Lemma string_app_nil_r (a : string) : a +:+ "" = a.
Proof. induction a as [|x a IH]; [done|]. exact (f_equal (String x) IH). Qed.

Lemma foldl_text_from (text : string) (lines : list string) :
  foldl (fun t line => t +:+ (line +:+ Str.nl)) text lines
  = text +:+ file_text lines.
Proof.
  unfold file_text. revert text.
  induction lines as [|line rest IH]; intros text; simpl.
  - by rewrite string_app_nil_r.
  - rewrite IH, (IH ("" +:+ _)), string_app_assoc. reflexivity.
Qed.

Lemma file_text_cons (line : string) (rest : list string) :
  file_text (line :: rest) = line +:+ Str.nl +:+ file_text rest.
Proof.
  unfold file_text at 1. simpl. rewrite foldl_text_from.
  exact (string_app_assoc line Str.nl (file_text rest)).
Qed.

Lemma text_lines_line (line rest : string) :
  no_line_break line = true ->
  Str.text_lines (line +:+ Str.nl +:+ rest)
  = (line +:+ Str.nl) :: Str.text_lines rest.
Proof.
  induction line as [|c line IH]; intros Hc.
  - reflexivity.
  - simpl in Hc. apply andb_prop in Hc as [Hc Hrest].
    apply andb_prop in Hc as [Hlf Hcr].
    apply negb_true_iff in Hlf, Hcr.
    change (String c line +:+ Str.nl +:+ rest)
      with (String c (line +:+ Str.nl +:+ rest)).
    cbn [Str.text_lines]. rewrite Hlf, Hcr, (IH Hrest). reflexivity.
Qed.

Lemma text_lines_file_text (lines : list string) :
  Forall (fun line => no_line_break line = true) lines ->
  Str.text_lines (file_text lines) = (fun line => line +:+ Str.nl) <$> lines.
Proof.
  induction 1 as [|line rest Hline _ IH]; [done|].
  rewrite file_text_cons, text_lines_line by done. by rewrite IH.
Qed.

Lemma write_lines_existing name lines w r old :
  fs w !! name = Some (RegularFile r true old) ->
  write_lines name lines w
  = Some (Ok (), set_fs (<[name := RegularFile r true (file_text lines)]> (fs w)) w).
Proof.
  intros Hf. unfold write_lines, mbind, prog_bind, open_write. rewrite Hf.
  rewrite (write_each_appends _ _ _ r true "") by (simpl; apply lookup_insert_eq).
  unfold set_fs; simpl. by rewrite insert_insert_eq.
Qed.

(** X10: when [report.txt] is a writable file, [write_report_to_file]
    announces the write and replaces the whole content of the file by the
    report lines, one per line; its permissions and every other entry are
    as before. When it does not exist and the directory is writable, the
    file is created with that content. *)
Theorem write_report_replaces_content (lines : list string) (w : world)
    (r : bool) :
  (exists old, fs w !! "report.txt" = Some (RegularFile r true old))
  \/ (fs w !! "report.txt" = None /\ cwd_writable w = true /\ r = true) ->
  exists w',
    write_report_to_file lines w = Some (Ok (), w')
    /\ stdin w' = stdin w
    /\ stdout w' = stdout w ++ ["Writing report to file 'report.txt'..." +:+ Str.nl]
    /\ fs w' !! "report.txt" = Some (RegularFile r true (file_text lines))
    /\ forall name, name <> "report.txt" -> fs w' !! name = fs w !! name.
Proof.
  intros Hcase. unfold write_report_to_file, mbind, prog_bind, print, write_stdout.
  destruct Hcase as [[old Hf]|(Hf & Hcw & ->)].
  - rewrite (write_lines_existing _ _ _ r old) by done.
    eexists. split; [reflexivity|]. simpl. split_and!; [done|done| |].
    + apply lookup_insert_eq.
    + intros name Hne. by rewrite lookup_insert_ne.
  - rewrite write_lines_new by done. simpl. rewrite Hcw.
    eexists. split; [reflexivity|]. simpl. split_and!; [done|done| |].
    + apply lookup_insert_eq.
    + intros name Hne. by rewrite lookup_insert_ne.
Qed.

Lemma write_report_replaces_content_witness :
  let w := World [] [] {[ "report.txt" := RegularFile false true "old text" ]} true in
  exists w',
    write_report_to_file ["a"; "b"] w = Some (Ok (), w')
    /\ stdin w' = stdin w
    /\ stdout w' = stdout w ++ ["Writing report to file 'report.txt'..." +:+ Str.nl]
    /\ fs w' !! "report.txt" = Some (RegularFile false true (file_text ["a"; "b"]))
    /\ forall name, name <> "report.txt" -> fs w' !! name = fs w !! name.
Proof.
  intros w. apply (write_report_replaces_content ["a"; "b"] w false).
  left. exists "old text". reflexivity.
Defined.

(** X11: a report written to [report.txt] reads back as it was written.
    When the report lines hold no line break (and are UTF-8 text), opening
    the file left by [write_report_to_file] in text mode and iterating over
    it, as the loader does with its data file, delivers the same lines,
    each followed by a newline, and ends without an exception. *)
Theorem written_report_reads_back `{lib : PyLib} (lines : list string) (w : world) :
  (exists old, fs w !! "report.txt" = Some (RegularFile true true old))
  \/ (fs w !! "report.txt" = None /\ cwd_writable w = true) ->
  Forall (fun line => no_line_break line = true) lines ->
  utf8_decode_error (file_text lines) = None ->
  exists w',
    write_report_to_file lines w = Some (Ok (), w')
    /\ (content ← open_read "report.txt"; mret (file_lines content)) w'
       = Some (Ok ((fun line => line +:+ Str.nl) <$> lines, None), w').
Proof.
  intros Hcase Hlines Hutf.
  assert (Hwrite : exists w',
             write_report_to_file lines w = Some (Ok (), w')
             /\ fs w' !! "report.txt" = Some (RegularFile true true (file_text lines))).
  { unfold write_report_to_file, mbind, prog_bind, print, write_stdout.
    destruct Hcase as [[old Hf]|[Hf Hcw]].
    - rewrite (write_lines_existing _ _ _ true old) by done.
      eexists. split; [reflexivity|]. apply lookup_insert_eq.
    - rewrite write_lines_new by done. simpl. rewrite Hcw.
      eexists. split; [reflexivity|]. apply lookup_insert_eq. }
  destruct Hwrite as (w' & Hrun & Hfile). exists w'. split; [done|].
  unfold mbind, prog_bind, open_read, file_lines. rewrite Hfile, Hutf.
  by rewrite (text_lines_file_text lines Hlines).
Qed.

Lemma written_report_reads_back_witness :
  let w := World [] [] ∅ true in
  exists w',
    write_report_to_file ["Yearly Report for 2025"; "Average Temperature: 4,00 °C"] w
    = Some (Ok (), w')
    /\ (content ← open_read "report.txt"; mret (file_lines (lib := Reference.lib) content)) w'
       = Some (Ok ((fun line => line +:+ Str.nl)
                     <$> ["Yearly Report for 2025"; "Average Temperature: 4,00 °C"],
                   None), w').
Proof.
  intros w.
  apply (written_report_reads_back (lib := Reference.lib)
           ["Yearly Report for 2025"; "Average Temperature: 4,00 °C"] w).
  - right. split; reflexivity.
  - repeat constructor.
  - vm_compute. reflexivity.
Defined.

(** X12: in a directory where no entry may be created,
    [create_report_file] raises [PermissionError] for the first free name
    and changes nothing: no file appears and nothing is printed. *)
Theorem new_report_in_read_only_directory (lines : list string) (w : world) :
  cwd_writable w = false ->
  exists n,
    first_free (fs w) n
    /\ create_report_file lines w
       = Some (Raise (PermissionError
                 ("[Errno 13] Permission denied: " +:+ Str.repr (report_filename n))),
               w).
Proof.
  intros Hcw. destruct (create_report_file_spec lines w) as (n & Hfree & Hrun).
  exists n. split; [done|]. rewrite Hrun. unfold mbind, prog_bind.
  destruct Hfree as (_ & Hnone & _).
  by rewrite (write_lines_new _ _ _ Hnone), Hcw.
Qed.

Lemma new_report_in_read_only_directory_witness :
  let w := World [] [] {[ "report_1.txt" := Directory ]} false in
  exists n,
    first_free (fs w) n
    /\ create_report_file ["a"] w
       = Some (Raise (PermissionError
                 ("[Errno 13] Permission denied: " +:+ Str.repr (report_filename n))),
               w).
Proof.
  intros w. apply (new_report_in_read_only_directory ["a"] w). reflexivity.
Defined.

(** ** Every loop ends *)

Lemma steady_ret {A} (a : A) : steady (mret a).
Proof. intros w. by exists (Ok a), w. Qed.

Lemma steady_raise {A} (e : exn) : steady (raise e : prog A).
Proof. intros w. by exists (Raise e), w. Qed.

Lemma steady_lift {A} (r : result A) : steady (lift r).
Proof. intros w. by exists r, w. Qed.

Lemma steady_bind {A B} (m : prog A) (f : A -> prog B) :
  steady m -> (forall a, steady (f a)) -> steady (m ≫= f).
Proof.
  intros Hm Hf w. destruct (Hm w) as (r & w1 & Hr & Hlen).
  unfold mbind, prog_bind. rewrite Hr. destruct r as [a|e].
  - destruct (Hf a w1) as (r2 & w2 & Hr2 & Hlen2).
    exists r2, w2. split; [done|lia].
  - by exists (Raise e), w1.
Qed.

Lemma steady_print (s : string) : steady (print s).
Proof. intros w. by eexists _, _. Qed.

Lemma steady_input (prompt : string) : steady (input prompt).
Proof.
  intros w. unfold input.
  destruct prompt; simpl; destruct (stdin w) as [|line rest] eqn:Hin;
    eexists _, _; (split; [reflexivity|]); simpl; rewrite ?Hin; simpl; lia.
Qed.

Lemma steady_os_path_exists (name : string) : steady (os_path_exists name).
Proof. intros w. by eexists _, _. Qed.

Lemma steady_open_write (name : string) : steady (open_write name).
Proof.
  intros w. unfold open_write.
  destruct (fs w !! name) as [[r wr c|]|]; [destruct wr| |destruct (cwd_writable w)];
    by eexists _, _.
Qed.

Lemma steady_file_write (name s : string) : steady (file_write name s).
Proof.
  intros w. unfold file_write.
  destruct (fs w !! name) as [[r wr c|]|]; by eexists _, _.
Qed.

Lemma steady_write_lines (name : string) (lines : list string) :
  steady (write_lines name lines).
Proof.
  apply steady_bind; [apply steady_open_write|]. intros _.
  induction lines as [|line rest IH]; simpl; [apply steady_ret|].
  apply steady_bind; [apply steady_file_write|done].
Qed.

Lemma steady_print_each (lines : list string) : steady (print_each lines).
Proof.
  induction lines as [|line rest IH]; simpl; [apply steady_ret|].
  apply steady_bind; [apply steady_print|done].
Qed.

Lemma steady_print_report_to_console (lines : list string) :
  steady (print_report_to_console lines).
Proof.
  repeat (apply steady_bind; [|intros _]);
    auto using steady_print, steady_print_each.
Qed.

Lemma steady_write_report_to_file (lines : list string) :
  steady (write_report_to_file lines).
Proof.
  apply steady_bind; [apply steady_print|]. intros _. apply steady_write_lines.
Qed.

Lemma steady_create_report_file (lines : list string) :
  steady (create_report_file lines).
Proof.
  intros w. destruct (create_report_file_spec lines w) as (n & _ & ->).
  apply steady_bind; [apply steady_write_lines|]. intros _. apply steady_print.
Qed.

Lemma steady_bounded_by_input {A} (loop : nat -> prog A) :
  steady_loop loop -> steady (bounded_by_input loop).
Proof. intros Hloop w. apply Hloop. lia. Qed.

Ltac steady_done Hin :=
  eexists _, _; split; [reflexivity|]; simpl; rewrite ?Hin; simpl; lia.

Lemma steady_prompt_start_date (tz : option Z) :
  steady_loop (fun fuel => prompt_start_date fuel tz).
Proof.
  intros fuel. induction fuel as [|fuel IH]; intros w Hlt; [lia|].
  simpl. unfold mbind, prog_bind, print, write_stdout, input. simpl.
  destruct (stdin w) as [|line rest] eqn:Hin; simpl; [steady_done Hin|].
  destruct (Datetime.strptime_dmY (Str.strip line)) as [d|e];
    [steady_done Hin|].
  destruct e; try steady_done Hin.
  edestruct IH as (r & w' & -> & Hlen); [|exists r, w'; split; [done|]].
  - simpl in *. lia.
  - simpl in *. lia.
Qed.

Lemma steady_prompt_end_date (tz : option Z) :
  steady_loop (fun fuel => prompt_end_date fuel tz).
Proof.
  intros fuel. induction fuel as [|fuel IH]; intros w Hlt; [lia|].
  simpl. unfold mbind, prog_bind, print, write_stdout, input. simpl.
  destruct (stdin w) as [|line rest] eqn:Hin; simpl; [steady_done Hin|].
  destruct (Datetime.strptime_dmY (Str.strip line)) as [d|e];
    [steady_done Hin|].
  destruct e; try steady_done Hin.
  edestruct IH as (r & w' & -> & Hlen); [|exists r, w'; split; [done|]].
  - simpl in *. lia.
  - simpl in *. lia.
Qed.

Lemma steady_prompt_month : steady_loop prompt_month.
Proof.
  intros fuel. induction fuel as [|fuel IH]; intros w Hlt; [lia|].
  simpl. unfold mbind, prog_bind, print, write_stdout, input, lift. simpl.
  destruct (stdin w) as [|line rest] eqn:Hin; simpl; [steady_done Hin|].
  destruct (month_in_range (Str.strip line)) as [[|]|e]; simpl;
    [destruct (int_of_str (Str.strip line)); steady_done Hin| |steady_done Hin].
  edestruct IH as (r & w' & -> & Hlen); [|exists r, w'; split; [done|]].
  - simpl in *. lia.
  - simpl in *. lia.
Qed.

Lemma steady_report_menu_loop (report_lines : list string) :
  steady_loop (fun fuel => report_menu_loop fuel report_lines).
Proof.
  intros fuel. induction fuel as [|fuel IH]; intros w Hlt; [lia|].
  cbn [report_menu_loop]. unfold mbind at 1, prog_bind at 1, input. simpl.
  destruct (stdin w) as [|line rest] eqn:Hin; simpl; [steady_done Hin|].
  set (w1 := World rest _ _ _).
  assert (Hw1 : (length (stdin w1) <= length rest)%nat) by done.
  destruct (String.eqb (Str.strip line) "1").
  { edestruct (steady_bind (write_report_to_file report_lines)
                 (fun _ => print "Report written to 'report.txt'."))
      as (r & w' & -> & Hlen);
      [apply steady_write_report_to_file|intros _; apply steady_print|].
    exists r, w'. split; [done|lia]. }
  destruct (String.eqb (Str.strip line) "2").
  { edestruct (steady_bind (create_report_file report_lines)
                 (fun _ => print "Report written to new file."))
      as (r & w' & -> & Hlen);
      [apply steady_create_report_file|intros _; apply steady_print|].
    exists r, w'. split; [done|lia]. }
  destruct (String.eqb (Str.strip line) "3").
  { eexists _, _. split; [reflexivity|]. simpl. lia. }
  edestruct (IH w1) as (r & w' & -> & Hlen); [simpl in *; lia|].
  exists r, w'. split; [done|lia].
Qed.

Lemma steady_show_report_menu (report_lines : list string) :
  steady (show_report_menu report_lines).
Proof.
  repeat (apply steady_bind; [apply steady_print|intros _]).
  apply steady_bounded_by_input, steady_report_menu_loop.
Qed.

Lemma steady_create_daily_report (data : list row) :
  steady (create_daily_report data).
Proof.
  apply steady_bind; [apply steady_print|intros _].
  apply steady_bind; [apply steady_lift|intros tz].
  apply steady_bind;
    [apply steady_bounded_by_input, steady_prompt_start_date|intros [s1 d1]].
  apply steady_bind;
    [apply steady_bounded_by_input, steady_prompt_end_date|intros [s2 d2]].
  apply steady_bind; [apply steady_print|intros _]. apply steady_lift.
Qed.

Lemma steady_create_monthly_report (data : list row) :
  steady (create_monthly_report data).
Proof.
  apply steady_bind; [apply steady_print|intros _].
  apply steady_bind; [apply steady_lift|intros tz].
  apply steady_bind; [apply steady_print|intros _].
  apply steady_bind;
    [apply steady_bounded_by_input, steady_prompt_month|intros month].
  apply steady_bind; [apply steady_lift|intros [s e]]. apply steady_lift.
Qed.

Lemma steady_create_yearly_report (data : list row) :
  steady (create_yearly_report data).
Proof.
  apply steady_bind; [apply steady_print|intros _].
  apply steady_bind; [apply steady_lift|intros tz].
  apply steady_bind; [apply steady_lift|intros [s e]]. apply steady_lift.
Qed.

Lemma steady_upto_of_steady {A} (n : nat) (m : prog A) : steady m -> steady_upto n m.
Proof. intros Hm w _. apply Hm. Qed.

Lemma steady_upto_bind {A B} (n : nat) (m : prog A) (f : A -> prog B) :
  steady_upto n m -> (forall a, steady_upto n (f a)) -> steady_upto n (m ≫= f).
Proof.
  intros Hm Hf w Hw. destruct (Hm w Hw) as (r & w1 & Hr & Hlen).
  unfold mbind, prog_bind. rewrite Hr. destruct r as [a|e].
  - destruct (Hf a w1) as (r2 & w2 & Hr2 & Hlen2); [lia|].
    exists r2, w2. split; [done|lia].
  - by exists (Raise e), w1.
Qed.

Section SessionEnds.

Context `{lib : PyLib}.

Lemma steady_main_loop (electricity_data : list row) :
  steady_loop (fun fuel => main_loop fuel electricity_data).
Proof.
  intros fuel. induction fuel as [|fuel IH]; intros w Hlt; [lia|].
  cbn [main_loop]. unfold mbind at 1, prog_bind at 1.
  unfold show_main_menu, mbind, prog_bind, print, write_stdout, input. simpl.
  destruct (stdin w) as [|line rest] eqn:Hin; simpl; [steady_done Hin|].
  set (w1 := World rest _ _ _).
  assert (Hloop : steady_upto (length rest) (main_loop fuel electricity_data)).
  { intros w' Hw'. apply IH. simpl in Hlt. lia. }
  assert (Hreport : forall make : prog (list string),
             steady make ->
             steady_upto (length rest)
               (report_lines ← make;
                print_report_to_console report_lines;;
                show_report_menu report_lines;;
                main_loop fuel electricity_data)).
  { intros make Hmake.
    apply steady_upto_bind; [by apply steady_upto_of_steady|intros report_lines].
    apply steady_upto_bind;
      [apply steady_upto_of_steady, steady_print_report_to_console|intros _].
    apply steady_upto_bind;
      [apply steady_upto_of_steady, steady_show_report_menu|intros _].
    done. }
  assert (Hw1 : (length (stdin w1) <= length rest)%nat) by done.
  destruct (String.eqb (Str.strip line) "1").
  { destruct (Hreport _ (steady_create_daily_report electricity_data) w1 Hw1)
      as (r & w' & Hr & Hlen).
    unfold mbind, prog_bind in Hr. rewrite Hr. exists r, w'. split; [done|]. simpl in *. lia. }
  destruct (String.eqb (Str.strip line) "2").
  { destruct (Hreport _ (steady_create_monthly_report electricity_data) w1 Hw1)
      as (r & w' & Hr & Hlen).
    unfold mbind, prog_bind in Hr. rewrite Hr. exists r, w'. split; [done|]. simpl in *. lia. }
  destruct (String.eqb (Str.strip line) "3").
  { destruct (Hreport _ (steady_create_yearly_report electricity_data) w1 Hw1)
      as (r & w' & Hr & Hlen).
    unfold mbind, prog_bind in Hr. rewrite Hr. exists r, w'. split; [done|]. simpl in *. lia. }
  destruct (String.eqb (Str.strip line) "4").
  { steady_done Hin. }
  destruct (Hloop (World rest (stdout w1 ++ ["Invalid selection. Please choose a valid option (1-4)." +:+ Str.nl]) (fs w1) (cwd_writable w1)))
    as (r & w' & Hr & Hlen); [done|].
  unfold print, write_stdout. simpl. simpl in Hr. rewrite Hr.
  exists r, w'. split; [done|]. simpl in *. lia.
Qed.

(** X13: [main] always ends: for every world, whatever is typed and
    whatever the files hold, it returns or raises after reading at most the
    lines typed; no loop of the program runs on without reading input. *)
Theorem main_ends (w : world) :
  exists r w',
    main w = Some (r, w') /\ (length (stdin w') <= length (stdin w))%nat.
Proof.
  unfold main.
  apply (steady_bind (fetch_electricity_data "2025.csv")).
  - intros w0.
    destruct (fetch_cases "2025.csv" w0) as [(wr & c & rows & _ & _ & _ & ->)|[e ->]];
      eexists _, _; (split; [reflexivity|]); simpl; lia.
  - intros [|entry rest]; [apply steady_print|].
    apply steady_bounded_by_input, steady_main_loop.
Qed.

End SessionEnds.

(** ** Prompts and menus on unexpected input *)













Lemma report_menu_loop_returns (report_lines bad : list string) :
  forall fuel out files cw choice rest,
    (length (bad ++ choice :: rest) < fuel)%nat ->
    Forall (no_choice ["1"; "2"; "3"]) bad ->
    Str.strip choice = "3" ->
    report_menu_loop fuel report_lines (World (bad ++ choice :: rest) out files cw)
    = Some (Ok (),
            World rest
              (out ++ replicate (S (length bad)) "Please select an option (1-3): "
                   ++ ["Returning to Main Menu..." +:+ Str.nl])
              files cw).
Proof.
  induction bad as [|line bad IH]; intros fuel out files cw choice rest Hlt Hbad Hsel;
    (destruct fuel as [|fuel]; [simpl in Hlt; lia|]).
  - cbn [report_menu_loop]. unfold mbind at 1, prog_bind at 1, input.
    cbn [stdin stdout fs cwd_writable app]. rewrite Hsel. simpl.
    unfold print, write_stdout. simpl. by rewrite <- !app_assoc.
  - apply Forall_cons in Hbad as [Hline Hbad].
    apply Forall_cons in Hline as [H1 Hline].
    apply Forall_cons in Hline as [H2 Hline].
    apply Forall_cons in Hline as [H3 _].
    cbn [report_menu_loop]. unfold mbind at 1, prog_bind at 1, input.
    cbn [stdin stdout fs cwd_writable app]. rewrite H1, H2, H3.
    rewrite (IH fuel _ files cw choice rest); [|simpl in Hlt; lia|done|done].
    simpl. by rewrite <- !app_assoc.
Qed.

(** X17: in the report output menu a line that is none of 1, 2 and 3 is
    answered by the prompt alone, without a complaint and without showing
    the menu again; choice 3 then returns to the caller with the files
    untouched. *)
Theorem report_menu_returns_on_3 (report_lines : list string) (w : world)
    (bad rest : list string) (choice : string) :
  stdin w = bad ++ choice :: rest ->
  Forall (no_choice ["1"; "2"; "3"]) bad ->
  Str.strip choice = "3" ->
  show_report_menu report_lines w
  = Some (Ok (),
          World rest
            (stdout w ++ report_menu_text
               ++ replicate (S (length bad)) "Please select an option (1-3): "
               ++ ["Returning to Main Menu..." +:+ Str.nl])
            (fs w) (cwd_writable w)).
Proof.
  intros Hin Hbad Hsel. destruct w as [inp out files cw]. simpl in Hin. subst inp.
  unfold show_report_menu, mbind, prog_bind, print, write_stdout, bounded_by_input.
  cbn [stdin stdout fs cwd_writable].
  rewrite (report_menu_loop_returns report_lines bad _ _ files cw choice rest)
    by (done || lia).
  unfold report_menu_text. do 3 f_equal. by rewrite <- !app_assoc.
Qed.

Lemma report_menu_returns_on_3_witness :
  let w := World ["x"; "4"; nbsp +:+ "3 "; "1"] [] ∅ false in
  show_report_menu ["a report"] w
  = Some (Ok (),
          World ["1"]
            ([] ++ report_menu_text
               ++ replicate (S (length ["x"; "4"])) "Please select an option (1-3): "
               ++ ["Returning to Main Menu..." +:+ Str.nl])
            ∅ false).
Proof.
  intros w.
  apply (report_menu_returns_on_3 ["a report"] w ["x"; "4"] ["1"] (nbsp +:+ "3 ")).
  - reflexivity.
  - repeat constructor.
  - reflexivity.
Defined.

Section MainMenu.

Context `{lib : PyLib}.

Lemma main_loop_exits (electricity_data : list row) (bad : list string) :
  forall fuel out files cw choice rest,
    (length (bad ++ choice :: rest) < fuel)%nat ->
    Forall (no_choice ["1"; "2"; "3"; "4"]) bad ->
    Str.strip choice = "4" ->
    main_loop fuel electricity_data (World (bad ++ choice :: rest) out files cw)
    = Some (Ok (),
            World rest
              (out
               ++ concat ((fun _ : string =>
                             main_menu_text
                             ++ ["Invalid selection. Please choose a valid option (1-4)."
                                   +:+ Str.nl]) <$> bad)
               ++ main_menu_text
               ++ ["Exiting the program. Goodbye!" +:+ Str.nl])
              files cw).
Proof.
  induction bad as [|line bad IH]; intros fuel out files cw choice rest Hlt Hbad Hsel;
    (destruct fuel as [|fuel]; [simpl in Hlt; lia|]).
  - cbn [main_loop]. unfold mbind at 1, prog_bind at 1.
    unfold show_main_menu, mbind, prog_bind, print, write_stdout, input.
    cbn [stdin stdout fs cwd_writable app concat fmap list_fmap]. rewrite Hsel. simpl.
    unfold main_menu_text. do 3 f_equal. by rewrite <- !app_assoc.
  - apply Forall_cons in Hbad as [Hline Hbad].
    apply Forall_cons in Hline as [H1 Hline].
    apply Forall_cons in Hline as [H2 Hline].
    apply Forall_cons in Hline as [H3 Hline].
    apply Forall_cons in Hline as [H4 _].
    cbn [main_loop]. unfold mbind at 1, prog_bind at 1.
    unfold show_main_menu, mbind at 1 2 3 4 5 6, prog_bind at 1 2 3 4 5 6,
      print at 1 2 3 4 5, write_stdout at 1 2 3 4 5, input.
    cbn [stdin stdout fs cwd_writable app]. unfold mret, prog_ret.
    rewrite H1, H2, H3, H4.
    unfold mbind at 1, prog_bind at 1, print at 1, write_stdout at 1.
    cbn [stdin stdout fs cwd_writable].
    rewrite (IH fuel _ files cw choice rest); [|simpl in Hlt; lia|done|done].
    unfold main_menu_text. simpl. do 3 f_equal. by rewrite <- !app_assoc.
Qed.

(** X18: with a dataset loaded, [main] answers every line that is none of
    1, 2, 3 and 4 with the complaint and shows the main menu again; choice
    4 then prints the farewell and ends the program, leaving the files as
    the load left them and any further input unread. *)
Theorem invalid_choices_then_exit (w w1 : world) (entry : row) (more : list row)
    (bad rest : list string) (choice : string) :
  fetch_electricity_data "2025.csv" w = Some (Ok (entry :: more), w1) ->
  stdin w1 = bad ++ choice :: rest ->
  Forall (no_choice ["1"; "2"; "3"; "4"]) bad ->
  Str.strip choice = "4" ->
  main w
  = Some (Ok (),
          World rest
            (stdout w1
             ++ concat ((fun _ : string =>
                           main_menu_text
                           ++ ["Invalid selection. Please choose a valid option (1-4)."
                                 +:+ Str.nl]) <$> bad)
             ++ main_menu_text
             ++ ["Exiting the program. Goodbye!" +:+ Str.nl])
            (fs w1) (cwd_writable w1)).
Proof.
  intros Hfetch Hin Hbad Hsel. unfold main, mbind, prog_bind. rewrite Hfetch.
  destruct w1 as [inp out files cw]. simpl in Hin. subst inp.
  unfold bounded_by_input. cbn [stdin stdout fs cwd_writable].
  by rewrite main_loop_exits by (done || lia).
Qed.

End MainMenu.

Lemma invalid_choices_then_exit_witness :
  let w := World ["9"; ""; "exit"; nbsp +:+ "4"; "1"] []
             {[ "2025.csv" := RegularFile true true scenario_content ]} true in
  main (lib := Reference.lib) w
  = Some (Ok (),
          World ["1"]
            ([]
             ++ concat ((fun _ : string =>
                           main_menu_text
                           ++ ["Invalid selection. Please choose a valid option (1-4)."
                                 +:+ Str.nl]) <$> ["9"; ""; "exit"])
             ++ main_menu_text
             ++ ["Exiting the program. Goodbye!" +:+ Str.nl])
            {[ "2025.csv" := RegularFile true true scenario_content ]} true).
Proof.
  intros w.
  apply (invalid_choices_then_exit (lib := Reference.lib) w w
           [naive 2025 1 1 0 0; pos_float 4503599627370496 (-52);
            pos_float 4503599627370496 (-53); pos_float 4503599627370496 (-51)]
           (tail scenario_rows) ["9"; ""; "exit"] ["1"] (nbsp +:+ "4")).
  - vm_compute. reflexivity.
  - reflexivity.
  - repeat constructor.
  - reflexivity.
Defined.

(** ** Rows outside the range, and mixed timestamps *)

Lemma sum_column_outside column (before after : list row) (entry : row) s e total :
  selects s e entry = Ok false ->
  sum_column column (before ++ entry :: after) s e total
  = sum_column column (before ++ after) s e total.
Proof.
  intros Hout. revert total.
  induction before as [|r before IH]; intros total; simpl.
  - unfold selects in Hout.
    destruct (getitem entry 0) as [timestamp|]; simpl in *; [|done].
    by rewrite Hout.
  - destruct (getitem r 0) as [timestamp|]; simpl; [|done].
    destruct (in_range s timestamp e) as [[|]|]; simpl; [|done|done].
    destruct (getitem r column) as [x|]; simpl; [|done].
    destruct (float_iadd total x); simpl; done.
Qed.

Lemma temperature_loop_outside (before after : list row) (entry : row) s e total count :
  selects s e entry = Ok false ->
  temperature_loop (before ++ entry :: after) s e total count
  = temperature_loop (before ++ after) s e total count.
Proof.
  intros Hout. revert total count.
  induction before as [|r before IH]; intros total count; simpl.
  - unfold selects in Hout.
    destruct (getitem entry 0) as [timestamp|]; simpl in *; [|done].
    by rewrite Hout.
  - destruct (getitem r 0) as [timestamp|]; simpl; [|done].
    destruct (in_range s timestamp e) as [[|]|]; simpl; [|done|done].
    destruct (getitem r 3) as [x|]; simpl; [|done].
    destruct (float_iadd total x); simpl; done.
Qed.

(** X19: a row for which the range test is false has no influence on any
    of the three results, wherever it stands and whatever its other fields
    hold: only its timestamp is looked at. *)
Theorem row_outside_range_has_no_influence (before after : list row) (entry : row)
    (start_date end_date : datetime) :
  selects start_date end_date entry = Ok false ->
  calculate_total_consumption (before ++ entry :: after) start_date end_date
  = calculate_total_consumption (before ++ after) start_date end_date
  /\ calculate_total_production (before ++ entry :: after) start_date end_date
     = calculate_total_production (before ++ after) start_date end_date
  /\ calculate_average_temperature (before ++ entry :: after) start_date end_date
     = calculate_average_temperature (before ++ after) start_date end_date.
Proof.
  intros Hout.
  unfold calculate_total_consumption, calculate_total_production,
    calculate_average_temperature.
  by rewrite !sum_column_outside, temperature_loop_outside.
Qed.

Lemma row_outside_range_has_no_influence_witness :
  let short_row := [naive 2025 1 2 0 0] in
  calculate_total_consumption ([] ++ short_row :: scenario_rows) jan_1_start jan_1_end
  = calculate_total_consumption ([] ++ scenario_rows) jan_1_start jan_1_end
  /\ calculate_total_production ([] ++ short_row :: scenario_rows) jan_1_start jan_1_end
     = calculate_total_production ([] ++ scenario_rows) jan_1_start jan_1_end
  /\ calculate_average_temperature ([] ++ short_row :: scenario_rows) jan_1_start jan_1_end
     = calculate_average_temperature ([] ++ scenario_rows) jan_1_start jan_1_end.
Proof.
  intros short_row.
  apply (row_outside_range_has_no_influence [] scenario_rows short_row
           jan_1_start jan_1_end).
  reflexivity.
Defined.

(** X20: a dataset whose first timestamp is aware and whose second is
    naive makes the yearly report raise [TypeError]: the bounds take the
    tzinfo of the first row, and the comparison with the naive timestamp
    of the second row is refused. *)
Theorem mixed_timestamps_fail_yearly_report (w : world) (d1 d2 : datetime)
    (off : Z) (c p t : float) (fields : row) (more : list row) :
  Datetime.tzinfo d1 = Some off ->
  Datetime.tzinfo d2 = None ->
  create_yearly_report
    ([VDatetime d1; VFloat c; VFloat p; VFloat t] :: (VDatetime d2 :: fields) :: more) w
  = Some (Raise (TypeError "can't compare offset-naive and offset-aware datetimes"),
          printed "Creating Yearly Report..." w).
Proof.
  intros H1 H2.
  unfold create_yearly_report, mbind at 1 2 3, prog_bind, print, write_stdout, lift.
  simpl. rewrite H1. simpl.
  unfold append_body, calculate_total_consumption. simpl.
  unfold in_range, datetime_le_value, value_le_datetime, Datetime.le, Datetime.compare.
  cbn [Datetime.tzinfo Datetime.replace_tzinfo]. rewrite H1, H2.
  rewrite Z.eqb_refl. cbn [mbind result_bind].
  destruct (match Datetime.base_compare _ d1 with Gt => false | _ => true end);
    cbn [mbind result_bind]; [|done].
  destruct (match Datetime.base_compare d1 _ with Gt => false | _ => true end);
    cbn [mbind result_bind getitem lookup list_lookup float_iadd]; done.
Qed.

Lemma mixed_timestamps_fail_yearly_report_witness :
  create_yearly_report mixed_rows (World ["1"] [] ∅ true)
  = Some (Raise (TypeError "can't compare offset-naive and offset-aware datetimes"),
          printed "Creating Yearly Report..." (World ["1"] [] ∅ true)).
Proof.
  apply (mixed_timestamps_fail_yearly_report (World ["1"] [] ∅ true)
           (Datetime.mk 2025 1 1 0 0 0 0 (Some 0))
           (Datetime.mk 2025 1 1 12 0 0 0 None) 0); reflexivity.
Defined.

(** ** Saving a report from the output menu *)

Lemma show_report_menu_first_choice (report_lines : list string) (w : world)
    (choice : string) (rest : list string) :
  stdin w = choice :: rest ->
  show_report_menu report_lines w
  = report_menu_loop (S (S (length rest))) report_lines
      (World (choice :: rest) (stdout w ++ report_menu_text) (fs w) (cwd_writable w)).
Proof.
  intros Hin. destruct w as [inp out files cw]. simpl in Hin. subst inp.
  unfold show_report_menu, mbind, prog_bind, print, write_stdout, bounded_by_input.
  cbn [stdin stdout fs cwd_writable length].
  unfold report_menu_text. by rewrite <- !app_assoc.
Qed.

(** X21: choice 1 of the report output menu, when [report.txt] is a
    writable file, replaces its content by the report and confirms; the
    other files are untouched and the rest of the input is left for the
    main menu. *)
Theorem report_menu_choice_1_saves (report_lines : list string) (w : world)
    (choice old : string) (rest : list string) (r : bool) :
  stdin w = choice :: rest ->
  Str.strip choice = "1" ->
  fs w !! "report.txt" = Some (RegularFile r true old) ->
  show_report_menu report_lines w
  = Some (Ok (),
          World rest
            (stdout w ++ report_menu_text
               ++ ["Please select an option (1-3): ";
                   "Writing report to file 'report.txt'..." +:+ Str.nl;
                   "Report written to 'report.txt'." +:+ Str.nl])
            (<["report.txt" := RegularFile r true (file_text report_lines)]> (fs w))
            (cwd_writable w)).
Proof.
  intros Hin Hsel Hf. rewrite (show_report_menu_first_choice _ _ _ _ Hin).
  cbn [report_menu_loop]. unfold mbind at 1, prog_bind at 1, input.
  cbn [stdin stdout fs cwd_writable]. rewrite Hsel.
  cbn [String.eqb Ascii.eqb Bool.eqb].
  unfold write_report_to_file, mbind, prog_bind, print, write_stdout.
  cbn [stdin stdout fs cwd_writable].
  rewrite (write_lines_existing _ _ _ r old) by done.
  unfold set_fs. cbn [stdin stdout fs cwd_writable].
  do 3 f_equal. by rewrite <- !app_assoc.
Qed.

Lemma report_menu_choice_1_saves_witness :
  let w := World [" 1"; "4"] []
             {[ "report.txt" := RegularFile true true "earlier report" ]} false in
  show_report_menu ["Yearly Report for 2025"] w
  = Some (Ok (),
          World ["4"]
            ([] ++ report_menu_text
               ++ ["Please select an option (1-3): ";
                   "Writing report to file 'report.txt'..." +:+ Str.nl;
                   "Report written to 'report.txt'." +:+ Str.nl])
            (<["report.txt" := RegularFile true true
                                 (file_text ["Yearly Report for 2025"])]> (fs w))
            false).
Proof.
  intros w.
  apply (report_menu_choice_1_saves ["Yearly Report for 2025"] w " 1"
           "earlier report" ["4"] true); reflexivity.
Defined.

(** X22: choice 2 of the report output menu, in a writable directory,
    creates the report under the first free name [report_<n>.txt], names
    the file and confirms; every entry that existed is kept. *)
Theorem report_menu_choice_2_creates (report_lines : list string) (w : world)
    (choice : string) (rest : list string) :
  stdin w = choice :: rest ->
  Str.strip choice = "2" ->
  cwd_writable w = true ->
  exists n,
    first_free (fs w) n
    /\ show_report_menu report_lines w
       = Some (Ok (),
               World rest
                 (stdout w ++ report_menu_text
                    ++ ["Please select an option (1-3): ";
                        ("Report created: " +:+ report_filename n) +:+ Str.nl;
                        "Report written to new file." +:+ Str.nl])
                 (<[report_filename n := report_file report_lines]> (fs w))
                 true).
Proof.
  intros Hin Hsel Hcw.
  set (w1 := World rest (stdout w ++ report_menu_text
                           ++ ["Please select an option (1-3): "])
               (fs w) (cwd_writable w)).
  destruct (create_report_file_writable report_lines w1 Hcw) as (n & Hfree & Hrun).
  exists n. split; [done|].
  rewrite (show_report_menu_first_choice _ _ _ _ Hin).
  cbn [report_menu_loop]. unfold mbind at 1, prog_bind at 1, input.
  cbn [stdin stdout fs cwd_writable]. rewrite Hsel.
  cbn [String.eqb Ascii.eqb Bool.eqb].
  unfold mbind, prog_bind.
  replace (World rest ((stdout w ++ report_menu_text)
                         ++ ["Please select an option (1-3): "])
             (fs w) (cwd_writable w)) with w1
    by (unfold w1; by rewrite <- app_assoc).
  rewrite Hrun. unfold print, write_stdout, printed, set_fs, w1.
  cbn [stdin stdout fs cwd_writable]. rewrite Hcw.
  do 3 f_equal. by rewrite <- !app_assoc.
Qed.

Lemma report_menu_choice_2_creates_witness :
  let w := World ["2"] [] {[ "report_1.txt" := RegularFile true true "kept" ]} true in
  exists n,
    first_free (fs w) n
    /\ show_report_menu ["a"] w
       = Some (Ok (),
               World []
                 ([] ++ report_menu_text
                    ++ ["Please select an option (1-3): ";
                        ("Report created: " +:+ report_filename n) +:+ Str.nl;
                        "Report written to new file." +:+ Str.nl])
                 (<[report_filename n := report_file ["a"]]> (fs w))
                 true).
Proof.
  intros w. apply (report_menu_choice_2_creates ["a"] w "2" []); reflexivity.
Defined.
